(** * The scoring and issue-identification engine of the MTSS planner

    A shallow embedding of the tiering engine ([getTier], [performAnalysis]),
    the aggregate averages ([mainDomainAverages], [systemicStrengths]), the
    report-card builder ([createReportCardData]) and the issue identification
    engine ([analyzeSchoolData], [buildSchoolDetails],
    [calculateAverageForCategory]).

    Conventions of the embedding.
    - A JavaScript number is an exact rational ([Q]); a number that the code
      only ever obtains from [parseInt], a counter or a [length] is an
      integer ([Z]).  [NaN] is [None].  Rounding of IEEE doubles and the
      literal [Infinity] are outside the model.
    - A score slot [school[key]] is the string the editing table stored
      there (a number stored by an importer reads as its decimal spelling);
      a key that is absent reads as [undefined].
    - The taxonomy and the catalogue tables are defined in the application's
      constants and data modules; here they are parameters of the engine. *)

From Stdlib Require Import ZArith QArith Qround String Ascii List Sorted Lia Lqa.
From stdpp Require Import gmap strings list.
Import ListNotations.
Open Scope Z_scope.

(** ** JavaScript primitives *)

Module JS.

(** [StrWhiteSpaceChar], ASCII part: TAB, LF, VT, FF, CR and SPACE. *)
Definition is_ws (c : ascii) : bool :=
  let n := Z.of_nat (nat_of_ascii c) in
  ((9 <=? n) && (n <=? 13)) || (n =? 32).

Fixpoint trim_start (s : string) : string :=
  match s with
  | String c r => if is_ws c then trim_start r else s
  | EmptyString => s
  end.

(** The value of a character as a digit, for radices up to 36. *)
Definition digit_value (c : ascii) : option Z :=
  let n := Z.of_nat (nat_of_ascii c) in
  if (48 <=? n) && (n <=? 57) then Some (n - 48)
  else if (97 <=? n) && (n <=? 122) then Some (n - 87)
  else if (65 <=? n) && (n <=? 90) then Some (n - 55)
  else None.

(** The longest prefix of [s] made of radix-[R] digits, and what follows. *)
Fixpoint span_digits (R : Z) (s : string) : list Z * string :=
  match s with
  | String c r =>
      match digit_value c with
      | Some d =>
          if d <? R
          then let '(ds, rest) := span_digits R r in (d :: ds, rest)
          else ([], s)
      | None => ([], s)
      end
  | EmptyString => ([], s)
  end.

Definition digits_value (R : Z) (ds : list Z) : Z :=
  fold_left (fun acc d => acc * R + d) ds 0.

(** An optional leading sign: the factor and the remaining text. *)
Definition read_sign (s : string) : Z * string :=
  match s with
  | String "-"%char r => (-1, r)
  | String "+"%char r => (1, r)
  | _ => (1, s)
  end.

Definition is_x (c : ascii) : bool :=
  let n := Z.of_nat (nat_of_ascii c) in (n =? 120) || (n =? 88).

(** [parseInt(input, radix)]; [radix = 0] stands for an omitted radix.
    [None] is [NaN]. *)
Definition parseInt (input : string) (radix : Z) : option Z :=
  let '(sign, s) := read_sign (trim_start input) in
  if negb (radix =? 0) && ((radix <? 2) || (36 <? radix)) then None
  else
    let stripPrefix := (radix =? 0) || (radix =? 16) in
    let R0 := if radix =? 0 then 10 else radix in
    let '(R, s) :=
      match s with
      | String "0"%char (String c r) =>
          if stripPrefix && is_x c then (16, r) else (R0, s)
      | _ => (R0, s)
      end in
    match span_digits R s with
    | ([], _) => None
    | (ds, _) => Some (sign * digits_value R ds)
    end.

(** [parseFloat(input)]: the longest prefix that is a decimal literal
    (sign, digits, fraction, exponent). *)
Definition parseFloat (input : string) : option Q :=
  let '(sign, s) := read_sign (trim_start input) in
  let '(ip, s1) := span_digits 10 s in
  let '(fp, s2) :=
    match s1 with
    | String "."%char r => span_digits 10 r
    | _ => ([], s1)
    end in
  match ip ++ fp with
  | [] => None
  | ds =>
      let e :=
        match s2 with
        | String c r =>
            if (Z.of_nat (nat_of_ascii c) =? 101) || (Z.of_nat (nat_of_ascii c) =? 69)
            then
              let '(esign, r') := read_sign r in
              match span_digits 10 r' with
              | ([], _) => 0
              | (eds, _) => esign * digits_value 10 eds
              end
            else 0
        | EmptyString => 0
        end in
      Some (inject_Z (sign * digits_value 10 ds)
            * Qpower (10 # 1) (e - Z.of_nat (length fp)))%Q
  end.

(** [x || 0] on the result of a parse: [NaN] and [0] are falsy. *)
Definition or_zero_Z (x : option Z) : Z := default 0 x.
Definition or_zero_Q (x : option Q) : Q := default 0%Q x.

(** Comparisons of numbers, as booleans. *)
Definition ltb (x y : Q) : bool := negb (Qle_bool y x).
Definition leb (x y : Q) : bool := Qle_bool x y.
Definition gtb (x y : Q) : bool := ltb y x.
Definition geb (x y : Q) : bool := leb y x.

(** [Math.round]: the nearest integer, ties towards plus infinity. *)
Definition Math_round (x : Q) : Z := Qfloor (x + (1 # 2))%Q.

(** [a / b] on two integers. *)
Definition div (a b : Z) : Q := (inject_Z a / inject_Z b)%Q.

(** [text || fallback] on a table lookup: [undefined] and the empty string
    are falsy. *)
Definition or_else (x : option string) (fallback : string) : string :=
  match x with
  | Some EmptyString | None => fallback
  | Some t => t
  end.

Fixpoint starts_with (p s : string) : option string :=
  match p, s with
  | EmptyString, _ => Some s
  | String a p', String b s' =>
      if Ascii.eqb a b then starts_with p' s' else None
  | String _ _, EmptyString => None
  end.

(** [s.split(sep)] for a non-empty separator: [skip] counts the characters
    of a separator still to pass over, [cur] is the piece being read,
    reversed. *)
Fixpoint split_go (sep : string) (skip : nat) (cur : list ascii) (s : string)
  : list string :=
  match s with
  | EmptyString => [string_of_list_ascii (rev cur)]
  | String c r =>
      match skip with
      | S k => split_go sep k cur r
      | O =>
          match starts_with sep s with
          | Some _ =>
              string_of_list_ascii (rev cur)
                :: split_go sep (String.length sep - 1) [] r
          | None => split_go sep 0 (c :: cur) r
          end
      end
  end.

Definition split (s sep : string) : list string := split_go sep 0 [] s.

End JS.

(** ** Data model *)

(** A row of the score table.  [get] is [school[field] as string]. *)
Module School.
Record t := mk {
  id : Z;
  name : string;
  principal : string;
  students : string;
  supportLevel : string;
  notes : string;
  slots : gmap string string
}.
Definition get (school : t) (field : string) : string :=
  default "undefined" (slots school !! field).
End School.

(** A row with the derived fields that [performAnalysis] spreads onto it. *)
Module SchoolForAnalysis.
Record t := mk {
  base : School.t;
  characterization : string;
  specificChallenges : list string;
  tier : Z
}.
Definition id (s : t) : Z := School.id (base s).
Definition name (s : t) : string := School.name (base s).
Definition get (s : t) (field : string) : string := School.get (base s) field.
End SchoolForAnalysis.

Module Metric.
Record t := mk { key : string; name : string }.
End Metric.

Module SubCategory.
Record t := mk { key : string; name : string; metrics : list Metric.t }.
End SubCategory.

Module Category.
Record t := mk { name : string; subCategories : list SubCategory.t }.
End Category.

Inductive IssueCategory := pedagogical | organizational | community | strategic.

Inductive Severity := critical | high | medium | low.

Module FullSystemicIssue.
Record t := mk {
  id : string;
  title : string;
  principalGoal : string;
  category : IssueCategory
}.
End FullSystemicIssue.

Module SchoolIssueDetail.
Record t := mk {
  schoolId : Z;
  schoolName : string;
  performanceTier : Z;
  severity : Severity;
  affectedMetrics : list string
}.
End SchoolIssueDetail.

Module Issue.
Record t := mk {
  id : string;
  name : string;
  description : string;
  affectedSchools : Z;
  totalSchools : Z;
  severity : Severity;
  category : IssueCategory;
  urgency : Z;
  schoolDetails : list SchoolIssueDetail.t;
  overallAverage : Q;
  tier1Average : Q;
  tier2Average : Q;
  tier3Average : Q
}.
End Issue.

Module Summary.
Record t := mk {
  totalSchools : Z;
  totalStudents : Z;
  lowPerformanceSchools : Z;
  excellentSchools : Z
}.
End Summary.

Module PerformanceClassification.
Record t := mk {
  tier1 : list SchoolForAnalysis.t;
  tier2 : list SchoolForAnalysis.t;
  tier3 : list SchoolForAnalysis.t
}.
End PerformanceClassification.

(** The fields of [AnalysisData] that carry data; the remaining ones are
    constant empty containers. *)
Module AnalysisData.
Record t := mk {
  schools : list SchoolForAnalysis.t;
  summary : Summary.t;
  performanceClassification : PerformanceClassification.t
}.
End AnalysisData.

Module Challenge.
Record t := mk { subCategory : string; text : string }.
End Challenge.

Module SchoolAssessmentData.
Record t := mk {
  id : Z;
  schoolName : string;
  principalName : string;
  overallAverage : Q;
  performanceTier : Z
}.
End SchoolAssessmentData.

Module SchoolReportCard.
Record t := mk {
  school : SchoolForAnalysis.t;
  schoolName : string;
  principalName : string;
  studentCount : Z;
  supportLevel : string;
  overallAverage : Q;
  performanceTier : Z;
  domainAverages : gmap string Q;
  strengths : list string;
  challenges : list Challenge.t;
  recommendations : list string
}.
End SchoolReportCard.

(** An entry of [allMetricsWithInfo] in the report-card builder. *)
Module MetricInfo.
Record t := mk { key : string; subCategory : string; name : string; score : Z }.
End MetricInfo.

(** The counters that the loop of the issue engine over the schools updates. *)
Module Tally.
Record t := mk {
  totalLowScores : Z;
  totalScoresCount : Z;
  affectedSchoolIds : gset Z
}.
End Tally.

(** ** Array helpers *)

Definition len {A} (l : list A) : Z := Z.of_nat (length l).

(** [Array.prototype.sort] with a comparator, which is stable:
    [in_order a b] says that the comparator is not positive on [(a, b)]. *)
Fixpoint sort_insert {A} (in_order : A -> A -> bool) (x : A) (l : list A) : list A :=
  match l with
  | [] => [x]
  | y :: l' =>
      if in_order x y then x :: y :: l' else y :: sort_insert in_order x l'
  end.

Definition Array_sort {A} (in_order : A -> A -> bool) (l : list A) : list A :=
  fold_right (sort_insert in_order) [] l.

(** [arr.reduce((a, b) => a + b, 0)] on numbers and on integers. *)
Definition sumQ (l : list Q) : Q := fold_left Qplus l 0%Q.
Definition sumZ (l : list Z) : Z := fold_left Z.add l 0.

(** [x.toFixed(2)] read back with [parseFloat]: two decimals, the larger
    candidate on a tie, the sign set apart. *)
Definition toFixed2 (x : Q) : Q :=
  if JS.ltb x 0
  then (- (inject_Z (JS.Math_round (- x * 100)) / 100))%Q
  else (inject_Z (JS.Math_round (x * 100)) / 100)%Q.

Definition quote : string := String (ascii_of_nat 34) EmptyString.

(** The generated phrase for a metric without a catalogued challenge. *)
Definition low_metric_text (label : string) : string :=
  ("תפקוד נמוך במדד: " ++ quote ++ label ++ quote)%string.

(** ** The engine *)

Section Engine.

(** The constant tables of the application. *)
Variable ALL_SCORE_FIELDS : list string.
Variable HIERARCHICAL_CATEGORIES : list Category.t.
Variable METRIC_TO_CHALLENGE_MAP : gmap string string.
Variable FIELD_HEBREW_MAP : gmap string string.
Variable BOOKLET_ISSUE_TO_METRICS_MAP : gmap string (list string).
Variable BOOKLET_TO_PLAN_ISSUES_MAP : gmap string (list string).
Variable issuesAndGoalsData : list FullSystemicIssue.t.

(** *** Tiering ([performAnalysis]) *)

Definition getTier (school : School.t) : Z :=
  let allScores :=
    List.filter (fun score => JS.gtb score 0)
      (map (fun field => JS.or_zero_Q (JS.parseFloat (School.get school field)))
           ALL_SCORE_FIELDS) in
  if len allScores <? 5 then 2
  else
    let overallAverage := (sumQ allScores / inject_Z (len allScores))%Q in
    let criticalScoresCount :=
      len (List.filter (fun score => JS.leb score 1.5) allScores) in
    let excellentScoresCount :=
      len (List.filter (fun score => JS.geb score 3.5) allScores) in
    if JS.ltb overallAverage 2.2 then 3
    else if JS.gtb overallAverage 3.2 && (criticalScoresCount <? 2) then 1
    else 2.

Definition performAnalysis (data : list School.t) : AnalysisData.t :=
  let schoolsForAnalysis :=
    map (fun school =>
           SchoolForAnalysis.mk school "N/A" [] (getTier school)) data in
  let tier1 := List.filter (fun s => SchoolForAnalysis.tier s =? 1) schoolsForAnalysis in
  let tier2 := List.filter (fun s => SchoolForAnalysis.tier s =? 2) schoolsForAnalysis in
  let tier3 := List.filter (fun s => SchoolForAnalysis.tier s =? 3) schoolsForAnalysis in
  let summary :=
    Summary.mk
      (len data)
      (fold_left
         (fun sum s => sum + JS.or_zero_Z (JS.parseInt (School.students s) 0))
         data 0)
      (len tier3)
      (len tier1) in
  AnalysisData.mk schoolsForAnalysis summary
    (PerformanceClassification.mk tier1 tier2 tier3).

(** The tier as the specification words it: the mean and the count of
    critical scores over the scores that are set and positive. *)
Definition positive_scores (school : School.t) : list Q :=
  flat_map
    (fun field =>
       match JS.parseFloat (School.get school field) with
       | Some q => if Qlt_le_dec 0 q then [q] else []
       | None => []
       end)
    ALL_SCORE_FIELDS.

Definition mean (S : list Q) : Q :=
  (fold_right Qplus 0 S / inject_Z (len S))%Q.

Definition tier_spec (school : School.t) : Z :=
  let S := positive_scores school in
  if Z_lt_dec (len S) 5 then 2
  else
    let avg := mean S in
    let criticalCount :=
      len (List.filter (fun x => if Qlt_le_dec 1.5 x then false else true) S) in
    if Qlt_le_dec avg 2.2 then 3
    else if Qlt_le_dec 3.2 avg
         then (if Z_lt_dec criticalCount 2 then 1 else 2)
         else 2.

(** *** Aggregate dashboard *)

Definition is_scored (score : option Z) : bool :=
  match score with
  | Some n => 0 <? n
  | None => false
  end.

Definition scored_values (l : list (option Z)) : list Z :=
  omap (fun score => if is_scored score then score else None) l.

Definition average_or_zero (scores : list Z) : Q :=
  if 0 <? len scores then JS.div (sumZ scores) (len scores) else 0%Q.

Definition mainDomainAverages (schools : list SchoolForAnalysis.t)
  : list (string * Q) :=
  map (fun mainCat =>
         let allMetrics :=
           flat_map SubCategory.metrics (Category.subCategories mainCat) in
         let allScores :=
           flat_map
             (fun school =>
                scored_values
                  (map (fun m =>
                          JS.parseInt
                            (SchoolForAnalysis.get school (Metric.key m)) 10)
                       allMetrics))
             schools in
         let average := average_or_zero allScores in
         (Category.name mainCat, toFixed2 average))
      HIERARCHICAL_CATEGORIES.

Definition systemicStrengths (schools : list SchoolForAnalysis.t)
  : list (string * Q) :=
  let subCategoryAverages :=
    fold_left
      (fun acc category =>
         fold_left
           (fun acc subCat =>
              let subCatScores :=
                scored_values
                  (flat_map
                     (fun school =>
                        map (fun m =>
                               JS.parseInt
                                 (SchoolForAnalysis.get school (Metric.key m)) 10)
                            (SubCategory.metrics subCat))
                     schools) in
              if 0 <? len subCatScores
              then acc ++ [(SubCategory.name subCat,
                            JS.div (sumZ subCatScores) (len subCatScores))]
              else acc)
           (Category.subCategories category) acc)
      HIERARCHICAL_CATEGORIES [] in
  take 5
    (Array_sort (fun a b => JS.leb (snd b - snd a) 0) subCategoryAverages).

(** *** School table and report card *)

Definition field_scores (school : SchoolForAnalysis.t) : list (string * Z) :=
  List.filter (fun item => 0 <? snd item)
    (map (fun field =>
            (field,
             JS.or_zero_Z (JS.parseInt (SchoolForAnalysis.get school field) 0)))
         ALL_SCORE_FIELDS).

Definition schoolTableData (analysisData : AnalysisData.t)
  : list SchoolAssessmentData.t :=
  map (fun school =>
         let scores := map snd (field_scores school) in
         let overallAverage := average_or_zero scores in
         SchoolAssessmentData.mk
           (SchoolForAnalysis.id school)
           (SchoolForAnalysis.name school)
           (School.principal (SchoolForAnalysis.base school))
           overallAverage
           (SchoolForAnalysis.tier school))
      (AnalysisData.schools analysisData).

Definition subCatMetricsWithScores (school : SchoolForAnalysis.t)
    (subCat : SubCategory.t) : list (Metric.t * Z) :=
  omap (fun m =>
          let score := JS.parseInt (SchoolForAnalysis.get school (Metric.key m)) 10 in
          if is_scored score then (fun n => (m, n)) <$> score else None)
       (SubCategory.metrics subCat).

(** The body of the loop over the sub-categories that fills [challenges]. *)
Definition push_challenges (school : SchoolForAnalysis.t)
    (challenges : list Challenge.t) (subCat : SubCategory.t) : list Challenge.t :=
  let scored := subCatMetricsWithScores school subCat in
  if len scored =? 0 then challenges
  else
    let subCatAvg :=
      JS.div (fold_left (fun acc curr => acc + snd curr) scored 0) (len scored) in
    if JS.ltb subCatAvg 3.5
    then
      fold_left
        (fun challenges curr =>
           let '(metric, score) := curr in
           if score <=? 3
           then
             let challengeText := METRIC_TO_CHALLENGE_MAP !! Metric.key metric in
             challenges ++
               [Challenge.mk (SubCategory.name subCat)
                  (JS.or_else challengeText (low_metric_text (Metric.name metric)))]
           else challenges)
        scored challenges
    else challenges.

Definition report_challenges (school : SchoolForAnalysis.t) : list Challenge.t :=
  fold_left
    (fun challenges category =>
       fold_left (push_challenges school) (Category.subCategories category) challenges)
    HIERARCHICAL_CATEGORIES [].

Definition allMetricsWithInfo (school : SchoolForAnalysis.t) : list MetricInfo.t :=
  fold_left
    (fun acc category =>
       fold_left
         (fun acc subCat =>
            fold_left
              (fun acc metric =>
                 match JS.parseInt (SchoolForAnalysis.get school (Metric.key metric)) 10 with
                 | Some score =>
                     if 0 <? score
                     then acc ++ [MetricInfo.mk (Metric.key metric)
                                    (SubCategory.name subCat) (Metric.name metric) score]
                     else acc
                 | None => acc
                 end)
              (SubCategory.metrics subCat) acc)
         (Category.subCategories category) acc)
    HIERARCHICAL_CATEGORIES [].

Definition createReportCardData (analysisData : option AnalysisData.t)
    (schoolId : Z) : option SchoolReportCard.t :=
  match analysisData with
  | None => None
  | Some analysisData =>
      match List.find (fun s => SchoolForAnalysis.id s =? schoolId)
                      (AnalysisData.schools analysisData) with
      | None => None
      | Some school =>
          let scores := field_scores school in
          let overallAverage := average_or_zero (map snd scores) in
          let domainAverages :=
            fold_left
              (fun (domainAverages : gmap string Q) cat =>
                 let catFields :=
                   flat_map (fun sc => map Metric.key (SubCategory.metrics sc))
                            (Category.subCategories cat) in
                 let catScores :=
                   map snd
                     (List.filter
                        (fun s => existsb (String.eqb (fst s)) catFields) scores) in
                 <[Category.name cat := average_or_zero catScores]> domainAverages)
              HIERARCHICAL_CATEGORIES ∅ in
          let strengths :=
            map (fun item =>
                   (MetricInfo.subCategory item ++ ": " ++ MetricInfo.name item)%string)
              (take 6
                 (Array_sort
                    (fun a b => MetricInfo.score b - MetricInfo.score a <=? 0)
                    (List.filter
                       (fun item => JS.geb (inject_Z (MetricInfo.score item)) 3.2)
                       (allMetricsWithInfo school)))) in
          let challenges := report_challenges school in
          Some (SchoolReportCard.mk
                  school
                  (SchoolForAnalysis.name school)
                  (School.principal (SchoolForAnalysis.base school))
                  (JS.or_zero_Z
                     (JS.parseInt (School.students (SchoolForAnalysis.base school)) 0))
                  (JS.or_else
                     (Some (School.supportLevel (SchoolForAnalysis.base school)))
                     "לא צוין")
                  overallAverage
                  (SchoolForAnalysis.tier school)
                  domainAverages
                  strengths
                  challenges
                  [])
      end
  end.

(** *** Issue identification ([analyzeSchoolData]) *)

Definition metricsFor (categoryKey : string) : list string :=
  default [] (BOOKLET_ISSUE_TO_METRICS_MAP !! categoryKey).

Definition calculateAverageForCategory (categoryKey : string)
    (schoolSet : list SchoolForAnalysis.t) : Q :=
  let metricsForCategory := metricsFor categoryKey in
  if (len metricsForCategory =? 0) || (len schoolSet =? 0) then 0%Q
  else
    let '(totalScore, scoreCount) :=
      fold_left
        (fun st school =>
           fold_left
             (fun '(totalScore, scoreCount) metric =>
                match JS.parseInt (SchoolForAnalysis.get school metric) 10 with
                | Some score =>
                    if 0 <? score
                    then (totalScore + score, scoreCount + 1)
                    else (totalScore, scoreCount)
                | None => (totalScore, scoreCount)
                end)
             metricsForCategory st)
        schoolSet (0, 0) in
    if 0 <? scoreCount then JS.div totalScore scoreCount else 0%Q.

(** The label shown for a metric without a catalogued challenge:
    [FIELD_HEBREW_MAP[key]?.split(' - ')[1] || String(key)]. *)
Definition metric_label (key : string) : string :=
  JS.or_else (FIELD_HEBREW_MAP !! key ≫= fun t => JS.split t " - " !! 1%nat) key.

Definition is_low_for_detail (school : SchoolForAnalysis.t) (metric : string) : bool :=
  match JS.parseInt (SchoolForAnalysis.get school metric) 10 with
  | Some score => score <=? 2
  | None => false
  end.

Definition detail_severity (percentage : Q) : Severity :=
  if JS.geb percentage 70 then critical
  else if JS.geb percentage 40 then high
  else medium.

Definition schoolDetail (metricsForCategory : list string)
    (school : SchoolForAnalysis.t) : option SchoolIssueDetail.t :=
  let affectedMetricsForSchool :=
    List.filter (is_low_for_detail school) metricsForCategory in
  if len affectedMetricsForSchool =? 0 then None
  else
    let percentage :=
      (JS.div (len affectedMetricsForSchool) (len metricsForCategory) * 100)%Q in
    let severity := detail_severity percentage in
    Some (SchoolIssueDetail.mk
            (SchoolForAnalysis.id school)
            (SchoolForAnalysis.name school)
            (SchoolForAnalysis.tier school)
            severity
            (map (fun key =>
                    JS.or_else (METRIC_TO_CHALLENGE_MAP !! key)
                               (low_metric_text (metric_label key)))
                 affectedMetricsForSchool)).

Definition buildSchoolDetails (schools : list SchoolForAnalysis.t)
    (categoryKey : string) : list SchoolIssueDetail.t :=
  let metricsForCategory := metricsFor categoryKey in
  if len metricsForCategory =? 0 then []
  else omap (schoolDetail metricsForCategory) schools.

(** One metric of one school: the two counters and [hasLowScoreInIssue]. *)
Definition visit_metric (school : SchoolForAnalysis.t)
    (st : Z * Z * bool) (metric : string) : Z * Z * bool :=
  let '(totalLowScores, totalScoresCount, hasLowScoreInIssue) := st in
  match JS.parseInt (SchoolForAnalysis.get school metric) 10 with
  | Some score =>
      if 0 <? score
      then
        if score <=? 2
        then (totalLowScores + 1, totalScoresCount + 1, true)
        else (totalLowScores, totalScoresCount + 1, hasLowScoreInIssue)
      else st
  | None => st
  end.

Definition visit_school (metricsForCategory : list string)
    (st : Tally.t) (school : SchoolForAnalysis.t) : Tally.t :=
  let '(totalLowScores, totalScoresCount, hasLowScoreInIssue) :=
    fold_left (visit_metric school) metricsForCategory
      (Tally.totalLowScores st, Tally.totalScoresCount st, false) in
  Tally.mk totalLowScores totalScoresCount
    (if hasLowScoreInIssue
     then {[SchoolForAnalysis.id school]} ∪ Tally.affectedSchoolIds st
     else Tally.affectedSchoolIds st).

Definition tally (schools : list SchoolForAnalysis.t)
    (metricsForCategory : list string) : Tally.t :=
  fold_left (visit_school metricsForCategory) schools (Tally.mk 0 0 ∅).

Definition finalScoreOf (scopeScore severityScore : Q) : Q :=
  (scopeScore * 0.6 + severityScore * 0.4)%Q.

Definition issue_severity (finalScore : Q) : Severity :=
  if JS.gtb finalScore 0.4 then critical
  else if JS.gtb finalScore 0.25 then high
  else if JS.gtb finalScore 0.1 then medium
  else low.

Definition urgencyOf (scopeScore severityScore : Q) : Z :=
  JS.Math_round (finalScoreOf scopeScore severityScore * 100)%Q.

(** The callback mapped over the relevant issues; [None] is [null]. *)
Definition analyzeIssue (schools : list SchoolForAnalysis.t)
    (issueData : FullSystemicIssue.t) : option Issue.t :=
  let metricsForCategory := metricsFor (FullSystemicIssue.id issueData) in
  let st := tally schools metricsForCategory in
  let totalLowScores := Tally.totalLowScores st in
  let totalScoresCount := Tally.totalScoresCount st in
  let affectedSchoolsCount := Z.of_nat (size (Tally.affectedSchoolIds st)) in
  if affectedSchoolsCount =? 0 then None
  else
    let scopeScore := JS.div affectedSchoolsCount (len schools) in
    let severityScore :=
      JS.div totalLowScores (if totalScoresCount =? 0 then 1 else totalScoresCount) in
    let finalScore := finalScoreOf scopeScore severityScore in
    let severity := issue_severity finalScore in
    let tier1Schools := List.filter (fun s => SchoolForAnalysis.tier s =? 1) schools in
    let tier2Schools := List.filter (fun s => SchoolForAnalysis.tier s =? 2) schools in
    let tier3Schools := List.filter (fun s => SchoolForAnalysis.tier s =? 3) schools in
    Some (Issue.mk
            (FullSystemicIssue.id issueData)
            (FullSystemicIssue.title issueData)
            (FullSystemicIssue.principalGoal issueData)
            affectedSchoolsCount
            (len schools)
            severity
            (FullSystemicIssue.category issueData)
            (JS.Math_round (finalScore * 100)%Q)
            (buildSchoolDetails schools (FullSystemicIssue.id issueData))
            (calculateAverageForCategory (FullSystemicIssue.id issueData) schools)
            (calculateAverageForCategory (FullSystemicIssue.id issueData) tier1Schools)
            (calculateAverageForCategory (FullSystemicIssue.id issueData) tier2Schools)
            (calculateAverageForCategory (FullSystemicIssue.id issueData) tier3Schools)).

(** [analyzeSchoolData]: the list handed to [setIssues], or [None] when the
    function returns before it. *)
Definition analyzeSchoolData (schools : list SchoolForAnalysis.t)
    (selectedFocusAreas : list string) : option (list Issue.t) :=
  if (len schools =? 0) || (len selectedFocusAreas =? 0) then None
  else
    let relevantIssueIds : gset string :=
      list_to_set
        (flat_map (fun area => default [] (BOOKLET_TO_PLAN_ISSUES_MAP !! area))
                  selectedFocusAreas) in
    let relevantIssuesData :=
      List.filter
        (fun issue => bool_decide (FullSystemicIssue.id issue ∈ relevantIssueIds))
        issuesAndGoalsData in
    Some (Array_sort (fun a b => Issue.urgency b - Issue.urgency a <=? 0)
            (omap (analyzeIssue schools) relevantIssuesData)).

(** *** The quantities of the issue engine as the specification words them *)

(** A slot's score when it is set and positive. *)
Definition slot_score (radix : Z) (raw : string) : option Z :=
  match JS.parseInt raw radix with
  | Some n => if 0 <? n then Some n else None
  | None => None
  end.

(** A slot's score when it is set and within the rubric's range. *)
Definition in_range_score (radix : Z) (raw : string) : option Z :=
  match JS.parseInt raw radix with
  | Some n => if (1 <=? n) && (n <=? 4) then Some n else None
  | None => None
  end.

(** Two rows that agree on the set positive score of every slot, under
    the parse with radix 10 and the parse without a radix. *)
Definition same_scores (s s' : SchoolForAnalysis.t) : Prop :=
  forall field,
    slot_score 10 (SchoolForAnalysis.get s field)
    = slot_score 10 (SchoolForAnalysis.get s' field)
    /\ slot_score 0 (SchoolForAnalysis.get s field)
       = slot_score 0 (SchoolForAnalysis.get s' field).

(** Two rows that agree on the in-range score of every slot. *)
Definition same_in_range_scores (s s' : SchoolForAnalysis.t) : Prop :=
  forall field,
    in_range_score 10 (SchoolForAnalysis.get s field)
    = in_range_score 10 (SchoolForAnalysis.get s' field)
    /\ in_range_score 0 (SchoolForAnalysis.get s field)
       = in_range_score 0 (SchoolForAnalysis.get s' field).

(** All set positive scores of the metrics [M] over the schools. *)
Definition issue_scores (schools : list SchoolForAnalysis.t) (M : list string)
  : list Z :=
  flat_map
    (fun school =>
       omap (fun metric => slot_score 10 (SchoolForAnalysis.get school metric)) M)
    schools.

Definition totalScoresCount_spec (schools : list SchoolForAnalysis.t)
    (M : list string) : Z :=
  len (issue_scores schools M).

Definition totalLowScores_spec (schools : list SchoolForAnalysis.t)
    (M : list string) : Z :=
  len (List.filter (fun n => n <=? 2) (issue_scores schools M)).

(** A school is affected when one of its set positive scores in [M] is at
    most 2. *)
Definition affected_by (M : list string) (school : SchoolForAnalysis.t) : bool :=
  existsb
    (fun metric =>
       match slot_score 10 (SchoolForAnalysis.get school metric) with
       | Some n => n <=? 2
       | None => false
       end)
    M.

Definition affectedSchoolsCount_spec (schools : list SchoolForAnalysis.t)
    (M : list string) : Z :=
  Z.of_nat
    (size (list_to_set
             (map SchoolForAnalysis.id (List.filter (affected_by M) schools))
           : gset Z)).

Definition scopeScore_spec (schools : list SchoolForAnalysis.t)
    (M : list string) : Q :=
  JS.div (affectedSchoolsCount_spec schools M) (len schools).

Definition severityScore_spec (schools : list SchoolForAnalysis.t)
    (M : list string) : Q :=
  JS.div (totalLowScores_spec schools M)
         (Z.max (totalScoresCount_spec schools M) 1).

Definition urgencyFraction_spec (schools : list SchoolForAnalysis.t)
    (M : list string) : Q :=
  (0.6 * scopeScore_spec schools M + 0.4 * severityScore_spec schools M)%Q.

Definition urgency_spec (schools : list SchoolForAnalysis.t)
    (M : list string) : Z :=
  JS.Math_round (urgencyFraction_spec schools M * 100)%Q.

Definition severity_bucket_spec (fraction : Q) : Severity :=
  if Qlt_le_dec 0.4 fraction then critical
  else if Qlt_le_dec 0.25 fraction then high
  else if Qlt_le_dec 0.1 fraction then medium
  else low.

(** The number of metrics of [M] that a school's detail row lists. *)
Definition affectedMetricCount (M : list string) (school : SchoolForAnalysis.t) : Z :=
  len (List.filter (is_low_for_detail school) M).

(** *** The challenges of one sub-category as the specification words them *)

Definition subCategoryAverage (school : SchoolForAnalysis.t)
    (subCat : SubCategory.t) : Q :=
  JS.div (sumZ (map snd (subCatMetricsWithScores school subCat)))
         (len (subCatMetricsWithScores school subCat)).

Definition challenge_entry (subCat : SubCategory.t) (metric : Metric.t)
  : Challenge.t :=
  Challenge.mk (SubCategory.name subCat)
    (JS.or_else (METRIC_TO_CHALLENGE_MAP !! Metric.key metric)
                (low_metric_text (Metric.name metric))).

(** The entries that the loop appends for one sub-category. *)
Definition subCategory_challenges (school : SchoolForAnalysis.t)
    (subCat : SubCategory.t) : list Challenge.t :=
  push_challenges school [] subCat.

End Engine.

(** ** Sample data *)

Module Sample.

Definition school_of (id : Z) (name : string) (scores : list (string * string))
  : School.t :=
  School.mk id name "" "" "" "" (list_to_map scores).

Definition analysed (tier : Z) (school : School.t) : SchoolForAnalysis.t :=
  SchoolForAnalysis.mk school "N/A" [] tier.

Definition fields : list string := ["m1"; "m2"; "m3"; "m4"; "m5"; "m6"].

Definition metric (key : string) : Metric.t := Metric.mk key ("metric " ++ key).

Definition taxonomy : list Category.t :=
  [Category.mk "Pedagogy"
     [SubCategory.mk "teaching" "Teaching" (map metric ["m1"; "m2"]);
      SubCategory.mk "climate" "Climate" (map metric ["m3"; "m4"; "m5"; "m6"])]].

(** One sub-category holding all six metrics. *)
Definition flat_taxonomy : list Category.t :=
  [Category.mk "All" [SubCategory.mk "all" "Everything" (map metric fields)]].

Definition challenge_texts : gmap string string :=
  {[ "m1" := "weak lesson planning" ]}.

Definition labels : gmap string string :=
  {[ "m2" := "Pedagogy - Feedback" ]}.

Definition issue_metrics : gmap string (list string) :=
  {[ "i1" := ["m1"; "m2"]; "i2" := ["m3"]; "i3" := [] ]}.

Definition plan_issues : gmap string (list string) :=
  {[ "focus" := ["i1"; "i2"; "i3"] ]}.

Definition catalog : list FullSystemicIssue.t :=
  [FullSystemicIssue.mk "i1" "Teaching quality" "Improve teaching" pedagogical;
   FullSystemicIssue.mk "i2" "School climate" "Improve climate" community;
   FullSystemicIssue.mk "i3" "Unmapped" "Nothing mapped" strategic].

Definition scores_of (values : list string) : list (string * string) :=
  zip fields values.

(** Six scores [1,1,1,1,1,4]: mean 1.5. *)
Definition weak : School.t := school_of 1 "Weak" (scores_of ["1"; "1"; "1"; "1"; "1"; "4"]).
(** Two scores only, both low: mean 1. *)
Definition sparse_low : School.t := school_of 2 "Sparse" (scores_of ["1"; "1"]).
(** Two scores only, both 4. *)
Definition sparse_high : School.t := school_of 3 "Sparse high" (scores_of ["4"; "4"]).
Definition strong : School.t := school_of 4 "Strong" (scores_of ["4"; "4"; "4"; "3"; "4"; "4"]).
(** Mean 3.5 with one metric scored 1. *)
Definition dampened : School.t := school_of 5 "Dampened" (scores_of ["4"; "4"; "4"; "4"; "4"; "1"]).
Definition mixed : School.t := school_of 6 "Mixed" (scores_of ["4"; "3"; "2"; "4"; "1"; "4"]).
(** A slot above the rubric's range. *)
Definition above_range : School.t := school_of 7 "Above" [("m1", "5")].
Definition blank : School.t := school_of 7 "Above" [("m1", "")].
(** A slot holding zero. *)
Definition zero_slot : School.t := school_of 8 "Zero" [("m1", "0"); ("m2", "3")].
Definition one_low : School.t := school_of 9 "One low" [("m1", "1"); ("m2", "3")].
Definition both_low : School.t := school_of 10 "Both low" [("m1", "2"); ("m2", "2")].
Definition fine : School.t := school_of 11 "Fine" [("m1", "3"); ("m2", "3")].
(** Six scores of 2: mean 2 and no score at or below 1.5. *)
Definition all_twos : School.t := school_of 12 "Twos" (scores_of ["2"; "2"; "2"; "2"; "2"; "2"]).

(** Ten schools, four of them with [m1] low, twenty scores in all. *)
Definition district : list SchoolForAnalysis.t :=
  map (fun i => analysed 2 (school_of i "low" [("m1", "2"); ("m2", "3")])) [1; 2; 3; 4]
  ++ map (fun i => analysed 2 (school_of i "ok" [("m1", "3"); ("m2", "4")])) [5; 6; 7; 8; 9; 10].

(** The row [zero_slot] with the zero erased. *)
Definition zero_blank : School.t := school_of 8 "Zero" [("m1", ""); ("m2", "3")].

Definition no_summary : Summary.t := Summary.mk 0 0 0 0.
Definition no_classification : PerformanceClassification.t :=
  PerformanceClassification.mk [] [] [].

(** Four schools: one with a zero slot, two with low scores, one without. *)
Definition small_district : list SchoolForAnalysis.t :=
  map (analysed 2) [zero_slot; one_low; both_low; fine].

Definition teaching_issue : FullSystemicIssue.t :=
  FullSystemicIssue.mk "i1" "Teaching quality" "Improve teaching" pedagogical.

Definition unmapped_issue : FullSystemicIssue.t :=
  FullSystemicIssue.mk "i3" "Unmapped" "Nothing mapped" strategic.

Definition report_input : AnalysisData.t :=
  performAnalysis fields [dampened; mixed].

(** The report card of the school [dampened] under [flat_taxonomy]. *)
Definition dampened_card : SchoolReportCard.t :=
  default
    (SchoolReportCard.mk (analysed 2 dampened) "" "" 0 "" 0 2 ∅ [] [] [])
    (createReportCardData fields flat_taxonomy challenge_texts
       (Some report_input) 5).

(** The issues found in [district] for the focus area [focus]. *)
Definition district_issues : list Issue.t :=
  default []
    (analyzeSchoolData challenge_texts labels issue_metrics plan_issues catalog
       district ["focus"]).

End Sample.

(** ** The issue selection step: component state *)

(** [arr.includes(x)] on strings. *)
Definition includes (arr : list string) (x : string) : bool :=
  existsb (String.eqb x) arr.

(** The updater that [handleIssueSelection] passes to [setSelectedIssues]. *)
Definition handleIssueSelection (prev : list string) (issueId : string)
  : list string :=
  if includes prev issueId
  then List.filter (fun id => negb (String.eqb id issueId)) prev
  else if len prev <? 3 then prev ++ [issueId]
  else prev.

(** The updater that [handleToggleDetails] passes to [setExpandedIssueId]. *)
Definition handleToggleDetails (prev : option string) (issueId : string)
  : option string :=
  match prev with
  | Some id => if String.eqb id issueId then None else Some issueId
  | None => Some issueId
  end.

(** The list that [handleContinue] hands to [onComplete]. *)
Definition handleContinue (issues : list Issue.t) (selectedIssues : list string)
  : list Issue.t :=
  List.filter (fun issue => includes selectedIssues (Issue.id issue)) issues.

Inductive SortBy := by_severity | by_affectedCount.

(** The table [severityOrder] of the details view; it has no entry for
    [low]. *)
Definition severityOrder (severity : Severity) : option Z :=
  match severity with
  | critical => Some 3
  | high => Some 2
  | medium => Some 1
  | low => None
  end.

Definition same_severity (a b : Severity) : bool :=
  match a, b with
  | critical, critical | high, high | medium, medium | low, low => true
  | _, _ => false
  end.

(** The comparator of [sortedDetails] is not positive on [(a, b)]; a
    comparator value that is not a number counts as zero. *)
Definition details_in_order (sortBy : SortBy) (a b : SchoolIssueDetail.t) : bool :=
  match sortBy with
  | by_severity =>
      match severityOrder (SchoolIssueDetail.severity b),
            severityOrder (SchoolIssueDetail.severity a) with
      | Some rb, Some ra => rb - ra <=? 0
      | _, _ => true
      end
  | by_affectedCount =>
      len (SchoolIssueDetail.affectedMetrics b)
      - len (SchoolIssueDetail.affectedMetrics a) <=? 0
  end.

Definition sortedDetails (details : list SchoolIssueDetail.t) (sortBy : SortBy)
  : list SchoolIssueDetail.t :=
  Array_sort (details_in_order sortBy) details.

(** ** The data mapping step: editing the score table *)

(** The keys of a row that the row editor writes. *)
Inductive SchoolKey :=
| key_name
| key_principal
| key_students
| key_supportLevel
| key_notes
| key_score (field : string).

(** [{ ...s, [field]: value }]. *)
Definition set_field (s : School.t) (field : SchoolKey) (value : string)
  : School.t :=
  match field with
  | key_name =>
      School.mk (School.id s) value (School.principal s) (School.students s)
        (School.supportLevel s) (School.notes s) (School.slots s)
  | key_principal =>
      School.mk (School.id s) (School.name s) value (School.students s)
        (School.supportLevel s) (School.notes s) (School.slots s)
  | key_students =>
      School.mk (School.id s) (School.name s) (School.principal s) value
        (School.supportLevel s) (School.notes s) (School.slots s)
  | key_supportLevel =>
      School.mk (School.id s) (School.name s) (School.principal s)
        (School.students s) value (School.notes s) (School.slots s)
  | key_notes =>
      School.mk (School.id s) (School.name s) (School.principal s)
        (School.students s) (School.supportLevel s) value (School.slots s)
  | key_score k =>
      School.mk (School.id s) (School.name s) (School.principal s)
        (School.students s) (School.supportLevel s) (School.notes s)
        (<[k := value]> (School.slots s))
  end.

(** [s[field]] for the same keys; a score key without a slot is
    [undefined]. *)
Definition get_field (s : School.t) (field : SchoolKey) : option string :=
  match field with
  | key_name => Some (School.name s)
  | key_principal => Some (School.principal s)
  | key_students => Some (School.students s)
  | key_supportLevel => Some (School.supportLevel s)
  | key_notes => Some (School.notes s)
  | key_score k => School.slots s !! k
  end.

(** The initial value of the [nextId] state. *)
Definition initialNextId (schools : list School.t) : Z :=
  match map School.id schools with
  | [] => 1
  | id :: ids => fold_left Z.max ids id + 1
  end.

Definition removeSchool (confirmed : bool) (prev : list School.t) (id : Z)
  : list School.t :=
  if confirmed
  then List.filter (fun school => negb (School.id school =? id)) prev
  else prev.

Definition updateSchool (prev : list School.t) (id : Z) (field : SchoolKey)
    (value : string) : list School.t :=
  map (fun s => if School.id s =? id then set_field s field value else s) prev.

(** The [replace] of the CSV export: every double-quote character of the
    value is doubled. *)
Fixpoint double_quotes (s : string) : string :=
  match s with
  | EmptyString => EmptyString
  | String c r =>
      if Ascii.eqb c (ascii_of_nat 34)
      then String c (String c (double_quotes r))
      else String c (double_quotes r)
  end.

Definition csv_cell (val : string) : string :=
  (quote ++ double_quotes val ++ quote)%string.

(** The first result that is not [None], as the [for] loops of the header
    lookup return it. *)
Fixpoint first_some {A B} (f : A -> option B) (l : list A) : option B :=
  match l with
  | [] => None
  | x :: l' =>
      match f x with
      | Some y => Some y
      | None => first_some f l'
      end
  end.

Section DataMapping.

Variable ALL_SCORE_FIELDS : list string.
Variable HIERARCHICAL_CATEGORIES : list Category.t.

Definition createEmptySchool (id : Z) : School.t :=
  School.mk id "" "" "" "" ""
    (fold_left (fun slots field => <[field := ""]> slots) ALL_SCORE_FIELDS ∅).

(** [addSchool] on the two pieces of state, the rows and [nextId]. *)
Definition addSchool (st : list School.t * Z) : list School.t * Z :=
  let '(prev, nextId) := st in
  (prev ++ [createEmptySchool nextId], nextId + 1).

(** The column title of a score field in the exported table. *)
Definition scoreHeader (field : string) : string :=
  default field
    (first_some
       (fun cat =>
          first_some
            (fun subCat =>
               (fun metric =>
                  (Category.name cat ++ " - " ++ SubCategory.name subCat
                   ++ " - " ++ Metric.name metric)%string)
               <$> List.find (fun m => String.eqb (Metric.key m) field)
                     (SubCategory.metrics subCat))
            (Category.subCategories cat))
       HIERARCHICAL_CATEGORIES).

Definition baseHeaders : list string :=
  ["שם בית הספר"; "מנהל/ת"; "מספר תלמידים"; "רמת ליווי"].

Definition finalHeaders : list string :=
  baseHeaders ++ map scoreHeader ALL_SCORE_FIELDS ++ ["הערות"].

(** The array [row] of one school; an absent slot is [undefined]. *)
Definition csv_row_values (school : School.t) : list (option string) :=
  [Some (School.name school); Some (School.principal school);
   Some (School.students school); Some (School.supportLevel school)]
  ++ map (fun field => School.slots school !! field) ALL_SCORE_FIELDS
  ++ [Some (School.notes school)].

(** [val || ''] on a cell value. *)
Definition csv_cells (school : School.t) : list string :=
  map (fun val => csv_cell (default "" val)) (csv_row_values school).

Definition csvRows (schools : list School.t) : list string :=
  map (fun school => String.concat "," (csv_cells school)) schools.

(** The text of the exported file, with its byte order mark. *)
Definition csvContent (schools : list School.t) : string :=
  String.concat (String (ascii_of_nat 10) EmptyString)
    (String.concat "," finalHeaders :: csvRows schools).

Definition byte_order_mark : string :=
  String (ascii_of_nat 239) (String (ascii_of_nat 187)
    (String (ascii_of_nat 191) EmptyString)).

Definition csvFile (schools : list School.t) : string :=
  (byte_order_mark ++ csvContent schools)%string.

End DataMapping.

(** ** Sample edits *)

Module Edits.

Definition table : list School.t := [Sample.weak; Sample.strong; Sample.mixed].

Definition picked : list string := ["i1"; "i2"].

(** Three schools in which the second catalogue entry is the more urgent. *)
Definition ranking_schools : list SchoolForAnalysis.t :=
  [Sample.analysed 2
     (Sample.school_of 1 "A" [("m1", "3"); ("m2", "3"); ("m3", "1")]);
   Sample.analysed 2
     (Sample.school_of 2 "B" [("m1", "3"); ("m2", "3"); ("m3", "2")]);
   Sample.analysed 3
     (Sample.school_of 3 "C" [("m1", "2"); ("m2", "4"); ("m3", "4")])].

Definition ranked_issues : list Issue.t :=
  default []
    (analyzeSchoolData Sample.challenge_texts Sample.labels Sample.issue_metrics
       Sample.plan_issues Sample.catalog ranking_schools ["focus"]).

Definition no_issue : Issue.t :=
  Issue.mk "" "" "" 0 0 low strategic 0 [] 0 0 0 0.

Definition teaching_found : Issue.t :=
  default no_issue
    (analyzeIssue Sample.challenge_texts Sample.labels Sample.issue_metrics
       ranking_schools Sample.teaching_issue).

(** A cell value written in two ways. *)
Definition plain_value : string := JS.trim_start "  plain".

Definition detail_rows : list SchoolIssueDetail.t :=
  buildSchoolDetails Sample.challenge_texts Sample.labels Sample.issue_metrics
    Sample.small_district "i1".

End Edits.

(** * Properties *)

(** ** Comparisons and rounding *)

Lemma ltb_lt (x y : Q) : JS.ltb x y = true <-> (x < y)%Q.
Proof.
  unfold JS.ltb. rewrite negb_true_iff, <- not_true_iff_false, Qle_bool_iff.
  split; [apply Qnot_le_lt | apply Qlt_not_le].
Qed.

Lemma ltb_ge (x y : Q) : JS.ltb x y = false <-> (y <= x)%Q.
Proof.
  unfold JS.ltb. rewrite negb_false_iff. apply Qle_bool_iff.
Qed.

Lemma leb_le (x y : Q) : JS.leb x y = true <-> (x <= y)%Q.
Proof. apply Qle_bool_iff. Qed.

Lemma leb_gt (x y : Q) : JS.leb x y = false <-> (y < x)%Q.
Proof.
  unfold JS.leb. rewrite <- not_true_iff_false, Qle_bool_iff.
  split; [apply Qnot_le_lt | apply Qlt_not_le].
Qed.

Lemma ltb_dec (x y : Q) :
  JS.ltb x y = if Qlt_le_dec x y then true else false.
Proof.
  destruct (Qlt_le_dec x y); [by apply ltb_lt | by apply ltb_ge].
Qed.

Lemma Math_round_le (x y : Q) : (x <= y)%Q -> JS.Math_round x <= JS.Math_round y.
Proof.
  intros H. unfold JS.Math_round. apply Qfloor_resp_le.
  apply Qplus_le_l. exact H.
Qed.

Lemma Math_round_Qeq (x y : Q) : (x == y)%Q -> JS.Math_round x = JS.Math_round y.
Proof.
  intros H. unfold JS.Math_round. apply Qfloor_comp. by rewrite H.
Qed.

Lemma len_nonneg {A} (l : list A) : 0 <= len l.
Proof. unfold len. lia. Qed.

Lemma len_nil_iff {A} (l : list A) : len l = 0 <-> l = [].
Proof. unfold len. destruct l; simpl; split; intros; try done; lia. Qed.

Lemma len_app {A} (l k : list A) : len (l ++ k) = len l + len k.
Proof. unfold len. rewrite length_app. lia. Qed.

Lemma len_cons {A} (x : A) (l : list A) : len (x :: l) = 1 + len l.
Proof. unfold len. simpl length. lia. Qed.

(** ** Sorting keeps the elements *)

Lemma sort_insert_perm {A} (in_order : A -> A -> bool) x l :
  Permutation (sort_insert in_order x l) (x :: l).
Proof.
  induction l as [|y l IH]; simpl; [done|].
  destruct (in_order x y); [done|].
  rewrite IH. apply perm_swap.
Qed.

Lemma Array_sort_perm {A} (in_order : A -> A -> bool) l :
  Permutation (Array_sort in_order l) l.
Proof.
  induction l as [|x l IH]; simpl; [done|].
  rewrite sort_insert_perm. by constructor.
Qed.

Lemma Array_sort_In {A} (in_order : A -> A -> bool) l x :
  In x (Array_sort in_order l) <-> In x l.
Proof.
  split; apply Permutation_in;
    [apply Array_sort_perm | symmetry; apply Array_sort_perm].
Qed.

(** ** Tiering *)

Section Tiering.

Variable ALL_SCORE_FIELDS : list string.

Lemma allScores_positive_scores (school : School.t) :
  List.filter (fun score => JS.gtb score 0)
    (map (fun field => JS.or_zero_Q (JS.parseFloat (School.get school field)))
         ALL_SCORE_FIELDS)
  = positive_scores ALL_SCORE_FIELDS school.
Proof.
  unfold positive_scores.
  induction ALL_SCORE_FIELDS as [|field fields IH]; simpl; [done|].
  rewrite IH. unfold JS.gtb. rewrite ltb_dec.
  destruct (JS.parseFloat (School.get school field)) as [q|]; simpl.
  - destruct (Qlt_le_dec 0 q); done.
  - destruct (Qlt_le_dec 0 0) as [H|H]; [|done].
    exfalso. by apply (Qlt_irrefl 0).
Qed.

Lemma fold_left_Qplus (l : list Q) (a : Q) :
  (fold_left Qplus l a == a + fold_right Qplus 0 l)%Q.
Proof.
  revert a. induction l as [|x l IH]; intros a; simpl.
  - by rewrite Qplus_0_r.
  - rewrite IH. by rewrite Qplus_assoc.
Qed.

Lemma sumQ_mean (S : list Q) :
  (sumQ S / inject_Z (len S) == mean S)%Q.
Proof.
  unfold sumQ, mean. rewrite fold_left_Qplus. by rewrite Qplus_0_l.
Qed.

Lemma critical_filter (S : list Q) :
  List.filter (fun score => JS.leb score 1.5) S
  = List.filter (fun x => if Qlt_le_dec 1.5 x then false else true) S.
Proof.
  apply List.filter_ext. intros x.
  destruct (Qlt_le_dec 1.5 x); [by apply leb_gt | by apply leb_le].
Qed.


Lemma getTier_range (school : School.t) :
  getTier ALL_SCORE_FIELDS school = 1
  \/ getTier ALL_SCORE_FIELDS school = 2
  \/ getTier ALL_SCORE_FIELDS school = 3.
Proof.
  unfold getTier.
  repeat match goal with |- context [if ?b then _ else _] => destruct b end;
    auto.
Qed.


Lemma filter_tiers_perm (l : list SchoolForAnalysis.t) :
  Forall (fun s => SchoolForAnalysis.tier s = 1 \/ SchoolForAnalysis.tier s = 2
                   \/ SchoolForAnalysis.tier s = 3) l ->
  Permutation l
    (List.filter (fun s => SchoolForAnalysis.tier s =? 1) l
     ++ List.filter (fun s => SchoolForAnalysis.tier s =? 2) l
     ++ List.filter (fun s => SchoolForAnalysis.tier s =? 3) l).
Proof.
  induction 1 as [|s l Hs _ IH]; simpl; [done|].
  destruct Hs as [Hs|[Hs|Hs]]; rewrite Hs; simpl.
  - by constructor.
  - by apply Permutation_cons_app.
  - rewrite app_assoc. apply Permutation_cons_app. by rewrite <- app_assoc.
Qed.

(** C9. [performAnalysis] gives every input school one tier among 1, 2 and
    3, keeps the schools in input order, and its three buckets partition
    them: the bucket sizes add up to [totalSchools], which is the number of
    input schools, and the summary counts are the sizes of the tier-3 and
    tier-1 buckets. *)
Theorem performAnalysis_partition (data : list School.t) :
  let r := performAnalysis ALL_SCORE_FIELDS data in
  let pc := AnalysisData.performanceClassification r in
  let summary := AnalysisData.summary r in
  map SchoolForAnalysis.base (AnalysisData.schools r) = data
  /\ Forall (fun s => SchoolForAnalysis.tier s = 1 \/ SchoolForAnalysis.tier s = 2
                      \/ SchoolForAnalysis.tier s = 3) (AnalysisData.schools r)
  /\ Permutation (AnalysisData.schools r)
       (PerformanceClassification.tier1 pc ++ PerformanceClassification.tier2 pc
        ++ PerformanceClassification.tier3 pc)
  /\ len (PerformanceClassification.tier1 pc)
     + len (PerformanceClassification.tier2 pc)
     + len (PerformanceClassification.tier3 pc) = Summary.totalSchools summary
  /\ Summary.totalSchools summary = len data
  /\ Summary.lowPerformanceSchools summary = len (PerformanceClassification.tier3 pc)
  /\ Summary.excellentSchools summary = len (PerformanceClassification.tier1 pc).
Proof.
  simpl.
  set (schools := map _ data).
  assert (Hbase : map SchoolForAnalysis.base schools = data).
  { unfold schools. rewrite map_map. simpl. apply map_id. }
  assert (Htiers : Forall (fun s => SchoolForAnalysis.tier s = 1
                             \/ SchoolForAnalysis.tier s = 2
                             \/ SchoolForAnalysis.tier s = 3) schools).
  { unfold schools. apply List.Forall_map, List.Forall_forall. intros s _. simpl.
    apply getTier_range. }
  pose proof (filter_tiers_perm schools Htiers) as Hperm.
  repeat split; try done.
  apply Permutation_length in Hperm. rewrite !length_app in Hperm.
  assert (Hsize : length schools = length data) by apply length_map.
  unfold len. lia.
Qed.

End Tiering.

(** ** Issue identification *)

Section IssueEngine.

Variable METRIC_TO_CHALLENGE_MAP : gmap string string.
Variable FIELD_HEBREW_MAP : gmap string string.
Variable BOOKLET_ISSUE_TO_METRICS_MAP : gmap string (list string).
Variable BOOKLET_TO_PLAN_ISSUES_MAP : gmap string (list string).
Variable issuesAndGoalsData : list FullSystemicIssue.t.

Local Abbreviation metricsFor := (metricsFor BOOKLET_ISSUE_TO_METRICS_MAP).
Local Abbreviation analyzeIssue :=
  (analyzeIssue METRIC_TO_CHALLENGE_MAP FIELD_HEBREW_MAP BOOKLET_ISSUE_TO_METRICS_MAP).
Local Abbreviation buildSchoolDetails :=
  (buildSchoolDetails METRIC_TO_CHALLENGE_MAP FIELD_HEBREW_MAP BOOKLET_ISSUE_TO_METRICS_MAP).
Local Abbreviation schoolDetail :=
  (schoolDetail METRIC_TO_CHALLENGE_MAP FIELD_HEBREW_MAP).
Local Abbreviation analyzeSchoolData :=
  (analyzeSchoolData METRIC_TO_CHALLENGE_MAP FIELD_HEBREW_MAP
     BOOKLET_ISSUE_TO_METRICS_MAP BOOKLET_TO_PLAN_ISSUES_MAP issuesAndGoalsData).

(** The ids that the selected focus areas make relevant. *)
Local Abbreviation relevant_ids areas :=
  (flat_map (fun area => default [] (BOOKLET_TO_PLAN_ISSUES_MAP !! area)) areas).

(** The inner loop, from any state of the counters. *)
Lemma visit_metrics (school : SchoolForAnalysis.t) (M : list string)
    (low cnt : Z) (has : bool) :
  let scores :=
    omap (fun metric => slot_score 10 (SchoolForAnalysis.get school metric)) M in
  fold_left (visit_metric school) M (low, cnt, has)
  = (low + len (List.filter (fun n => n <=? 2) scores),
     cnt + len scores,
     has || affected_by M school).
Proof.
  revert low cnt has. induction M as [|metric M IH]; intros low cnt has; simpl.
  - unfold len; simpl. by rewrite !Z.add_0_r, orb_false_r.
  - unfold slot_score in *.
    destruct (JS.parseInt (SchoolForAnalysis.get school metric) 10) as [n|];
      [|by rewrite IH].
    destruct (0 <? n); [|by rewrite IH].
    destruct (n <=? 2) eqn:Hn; rewrite IH; simpl; rewrite ?Hn, !len_cons;
      unfold omap.
    + f_equal; [f_equal; lia|]. by rewrite orb_true_r.
    + f_equal. f_equal. lia.
Qed.

Lemma visit_school_spec (M : list string) (st : Tally.t)
    (school : SchoolForAnalysis.t) :
  visit_school M st school
  = Tally.mk
      (Tally.totalLowScores st + totalLowScores_spec [school] M)
      (Tally.totalScoresCount st + totalScoresCount_spec [school] M)
      (if affected_by M school
       then {[SchoolForAnalysis.id school]} ∪ Tally.affectedSchoolIds st
       else Tally.affectedSchoolIds st).
Proof.
  unfold visit_school, totalLowScores_spec, totalScoresCount_spec, issue_scores.
  rewrite visit_metrics. simpl. by rewrite !app_nil_r.
Qed.

Lemma issue_scores_cons (school : SchoolForAnalysis.t) schools M :
  issue_scores (school :: schools) M
  = issue_scores [school] M ++ issue_scores schools M.
Proof. unfold issue_scores. simpl. by rewrite app_nil_r. Qed.

Lemma tally_from (M : list string) (schools : list SchoolForAnalysis.t)
    (st : Tally.t) :
  fold_left (visit_school M) schools st
  = Tally.mk
      (Tally.totalLowScores st + totalLowScores_spec schools M)
      (Tally.totalScoresCount st + totalScoresCount_spec schools M)
      (list_to_set (map SchoolForAnalysis.id (List.filter (affected_by M) schools))
       ∪ Tally.affectedSchoolIds st).
Proof.
  revert st. induction schools as [|school schools IH]; intros st; simpl.
  - destruct st as [low cnt ids]. simpl.
    unfold totalLowScores_spec, totalScoresCount_spec, len. simpl.
    f_equal; [lia | lia | by rewrite (left_id_L ∅ (∪))].
  - rewrite IH, visit_school_spec. simpl.
    unfold totalLowScores_spec, totalScoresCount_spec.
    rewrite (issue_scores_cons school schools).
    rewrite List.filter_app, !len_app.
    f_equal; [lia | lia |].
    destruct (affected_by M school); simpl; [|done].
    by rewrite (assoc_L (∪)), (comm_L (∪) _ {[_]}).
Qed.

Lemma tally_spec (schools : list SchoolForAnalysis.t) (M : list string) :
  tally schools M
  = Tally.mk (totalLowScores_spec schools M) (totalScoresCount_spec schools M)
      (list_to_set (map SchoolForAnalysis.id (List.filter (affected_by M) schools))).
Proof.
  unfold tally. rewrite tally_from. simpl. f_equal.
  by rewrite (right_id_L ∅ (∪)).
Qed.

Lemma issue_severity_bucket (f g : Q) :
  (f == g)%Q -> issue_severity f = severity_bucket_spec g.
Proof.
  intros Hfg. unfold issue_severity, severity_bucket_spec, JS.gtb.
  rewrite !ltb_dec.
  repeat match goal with
         | |- context [Qlt_le_dec ?a ?b] => destruct (Qlt_le_dec a b)
         end; try done; exfalso;
    repeat match goal with
           | H : (_ < f)%Q |- _ => rewrite Hfg in H
           | H : (f <= _)%Q |- _ => rewrite Hfg in H
           end;
    match goal with
    | H1 : (?a < ?b)%Q, H2 : (?b <= ?a)%Q |- _ => exact (Qlt_not_le _ _ H1 H2)
    end.
Qed.

Lemma finalScore_fraction (schools : list SchoolForAnalysis.t) (M : list string) :
  (finalScoreOf (scopeScore_spec schools M) (severityScore_spec schools M)
   == urgencyFraction_spec schools M)%Q.
Proof. unfold finalScoreOf, urgencyFraction_spec. ring. Qed.

Lemma or_one_max (n : Z) : 0 <= n -> (if n =? 0 then 1 else n) = Z.max n 1.
Proof. intros Hn. destruct (Z.eqb_spec n 0); lia. Qed.

(** What the callback returns for one catalogue entry. *)
Lemma analyzeIssue_spec (schools : list SchoolForAnalysis.t)
    (d : FullSystemicIssue.t) :
  let M := metricsFor (FullSystemicIssue.id d) in
  (affectedSchoolsCount_spec schools M = 0 -> analyzeIssue schools d = None)
  /\ (affectedSchoolsCount_spec schools M <> 0 ->
      exists issue,
        analyzeIssue schools d = Some issue
        /\ Issue.id issue = FullSystemicIssue.id d
        /\ Issue.affectedSchools issue = affectedSchoolsCount_spec schools M
        /\ Issue.totalSchools issue = len schools
        /\ Issue.urgency issue
           = urgencyOf (scopeScore_spec schools M) (severityScore_spec schools M)
        /\ Issue.severity issue
           = issue_severity
               (finalScoreOf (scopeScore_spec schools M) (severityScore_spec schools M))
        /\ Issue.schoolDetails issue
           = buildSchoolDetails schools (FullSystemicIssue.id d)).
Proof.
  intros M. unfold analyzeIssue. fold M. rewrite tally_spec. simpl.
  fold (affectedSchoolsCount_spec schools M).
  split; intros Hcount.
  - by rewrite Hcount.
  - apply Z.eqb_neq in Hcount. rewrite Hcount.
    eexists. split; [reflexivity|]. simpl.
    rewrite (or_one_max (totalScoresCount_spec schools M))
      by apply len_nonneg.
    by repeat split.
Qed.

(** The elements of the list that [analyzeSchoolData] hands over. *)
Lemma analyzeSchoolData_In (schools : list SchoolForAnalysis.t)
    (areas : list string) (issues : list Issue.t) :
  analyzeSchoolData schools areas = Some issues ->
  forall issue,
    In issue issues <->
    exists d, In d issuesAndGoalsData
              /\ In (FullSystemicIssue.id d) (relevant_ids areas)
              /\ analyzeIssue schools d = Some issue.
Proof.
  unfold analyzeSchoolData.
  destruct ((len schools =? 0) || (len areas =? 0)); [done|].
  intros [= <-] issue. rewrite Array_sort_In, <- list_elem_of_In, list_elem_of_omap.
  split.
  - intros (d & Hd & Hissue). exists d.
    apply list_elem_of_In, filter_In in Hd as [Hd Hrel].
    apply bool_decide_eq_true_1, elem_of_list_to_set, list_elem_of_In in Hrel.
    done.
  - intros (d & Hd & Hrel & Hissue). exists d. split; [|done].
    apply list_elem_of_In, filter_In. split; [done|].
    apply bool_decide_eq_true_2, elem_of_list_to_set, list_elem_of_In. done.
Qed.

Lemma detail_severity_cases (percentage : Q) :
  ((70 <= percentage)%Q -> detail_severity percentage = critical)
  /\ ((40 <= percentage)%Q -> (percentage < 70)%Q ->
      detail_severity percentage = high)
  /\ ((percentage < 40)%Q -> detail_severity percentage = medium).
Proof.
  unfold detail_severity, JS.geb. repeat split.
  - intros H. apply leb_le in H. by rewrite H.
  - intros H40 H70. apply leb_le in H40. apply leb_gt in H70.
    by rewrite H70, H40.
  - intros H40.
    assert (H70 : (percentage < 70)%Q) by lra.
    apply leb_gt in H40. apply leb_gt in H70. by rewrite H70, H40.
Qed.

Lemma full_percentage (m : Z) : 0 < m -> (JS.div m m * 100 == 100)%Q.
Proof.
  intros Hm. unfold JS.div.
  assert (Hne : ~ (inject_Z m == 0)%Q).
  { unfold Qeq. simpl. lia. }
  field. exact Hne.
Qed.


(** C7. An issue without an affected school is not in the list that the
    engine returns: every returned issue reports its number of distinct
    affected schools, which is positive; a catalogue entry with no affected
    school yields no issue; and an entry without metrics has no affected
    school. *)
Theorem unaffected_issue_is_dropped (schools : list SchoolForAnalysis.t)
    (areas : list string) (issues : list Issue.t) :
  analyzeSchoolData schools areas = Some issues ->
  (forall issue,
     In issue issues ->
     Issue.affectedSchools issue
     = affectedSchoolsCount_spec schools (metricsFor (Issue.id issue))
     /\ 0 < Issue.affectedSchools issue)
  /\ (forall d,
        affectedSchoolsCount_spec schools (metricsFor (FullSystemicIssue.id d)) = 0 ->
        analyzeIssue schools d = None
        /\ forall issue, In issue issues -> Issue.id issue <> FullSystemicIssue.id d)
  /\ (forall key,
        metricsFor key = [] ->
        affectedSchoolsCount_spec schools (metricsFor key) = 0).
Proof.
  intros Hrun.
  assert (Hin : forall issue,
             In issue issues ->
             Issue.affectedSchools issue
             = affectedSchoolsCount_spec schools (metricsFor (Issue.id issue))
             /\ 0 < Issue.affectedSchools issue).
  { intros issue Hissue.
    apply (analyzeSchoolData_In _ _ _ Hrun) in Hissue as (d & _ & _ & Hd).
    destruct (analyzeIssue_spec schools d) as [Hnone Hsome].
    destruct (Z.eq_dec
                (affectedSchoolsCount_spec schools
                   (metricsFor (FullSystemicIssue.id d))) 0) as [Hz|Hnz].
    - rewrite (Hnone Hz) in Hd. done.
    - destruct (Hsome Hnz) as (issue' & Hissue' & Hid & Hcount & _).
      rewrite Hd in Hissue'. injection Hissue' as <-.
      rewrite Hid, Hcount. split; [done|].
      unfold affectedSchoolsCount_spec in *. lia. }
  split; [exact Hin|]. split.
  - intros d Hzero. split; [by apply analyzeIssue_spec|].
    intros issue Hissue Hid. destruct (Hin issue Hissue) as [Hcount Hpos].
    rewrite Hid in Hcount. lia.
  - intros key ->. unfold affectedSchoolsCount_spec.
    assert (Hnone : List.filter (affected_by []) schools = []).
    { clear. induction schools as [|s l IH]; simpl; done. }
    rewrite Hnone. reflexivity.
Qed.

(** C8. The urgency that the engine computes from scopeScore and
    severityScore does not decrease when one of the two scores increases and
    the other is kept. *)
Theorem urgency_monotone (scope scope' sev sev' : Q) :
  (scope <= scope')%Q -> (sev <= sev')%Q ->
  (forall schools d issue,
     analyzeIssue schools d = Some issue ->
     Issue.urgency issue
     = urgencyOf (scopeScore_spec schools (metricsFor (FullSystemicIssue.id d)))
                 (severityScore_spec schools (metricsFor (FullSystemicIssue.id d))))
  /\ urgencyOf scope sev <= urgencyOf scope' sev
  /\ urgencyOf scope sev <= urgencyOf scope sev'.
Proof.
  intros Hscope Hsev. split; [|split].
  - intros schools d issue Hissue.
    destruct (analyzeIssue_spec schools d) as [Hnone Hsome].
    destruct (Z.eq_dec
                (affectedSchoolsCount_spec schools
                   (metricsFor (FullSystemicIssue.id d))) 0) as [Hz|Hnz].
    + rewrite (Hnone Hz) in Hissue. done.
    + destruct (Hsome Hnz) as (issue' & Hissue' & _ & _ & _ & Hurg & _).
      rewrite Hissue in Hissue'. injection Hissue' as <-. exact Hurg.
  - unfold urgencyOf, finalScoreOf. apply Math_round_le. lra.
  - unfold urgencyOf, finalScoreOf. apply Math_round_le. lra.
Qed.

(** C4. The severity of a school's detail row for an issue with metric set
    M comes from percentage = affectedMetricCount / |M| * 100 with inclusive
    thresholds: at least 70 is critical, at least 40 is high, below 40 is
    medium; a school with all metrics of the issue low is critical, and the
    values 70 and 40 themselves are critical and high. *)
Theorem detail_severity_thresholds (schools : list SchoolForAnalysis.t)
    (key : string) (school : SchoolForAnalysis.t) :
  In school schools ->
  let M := metricsFor key in
  let a := affectedMetricCount M school in
  let percentage := (JS.div a (len M) * 100)%Q in
  (a = 0 -> schoolDetail M school = None)
  /\ (0 < a ->
      exists detail,
        schoolDetail M school = Some detail
        /\ In detail (buildSchoolDetails schools key)
        /\ SchoolIssueDetail.schoolId detail = SchoolForAnalysis.id school
        /\ ((70 <= percentage)%Q -> SchoolIssueDetail.severity detail = critical)
        /\ ((40 <= percentage)%Q -> (percentage < 70)%Q ->
            SchoolIssueDetail.severity detail = high)
        /\ ((percentage < 40)%Q -> SchoolIssueDetail.severity detail = medium)
        /\ (a = len M -> SchoolIssueDetail.severity detail = critical))
  /\ detail_severity 70 = critical
  /\ detail_severity 40 = high
  /\ detail_severity 100 = critical.
Proof.
  intros Hschool M a percentage.
  split; [|split; [|by repeat split]].
  - intros Ha. unfold schoolDetail. fold (affectedMetricCount M school).
    fold a. by rewrite Ha.
  - intros Ha. unfold schoolDetail. fold (affectedMetricCount M school).
    fold a. fold percentage.
    destruct (Z.eqb_spec a 0) as [|_]; [lia|].
    eexists. split; [reflexivity|]. simpl.
    destruct (detail_severity_cases percentage) as (Hc & Hh & Hm).
    split; [|split; [done|split; [done|split; [done|split; [done|]]]]].
    + unfold buildSchoolDetails. fold M.
      assert (HM : 0 < len M).
      { unfold a, affectedMetricCount, len in *.
        pose proof (List.filter_length_le (is_low_for_detail school) M). lia. }
      destruct (Z.eqb_spec (len M) 0) as [|_]; [lia|].
      apply list_elem_of_In, list_elem_of_omap. exists school.
      split; [by apply list_elem_of_In|].
      unfold schoolDetail. fold (affectedMetricCount M school). fold a.
      destruct (Z.eqb_spec a 0) as [|_]; [lia|]. done.
    + intros Hall. apply Hc. unfold percentage. rewrite Hall.
      rewrite full_percentage by lia. done.
Qed.

End IssueEngine.

(** ** Report card *)

Section ReportCard.

Variable ALL_SCORE_FIELDS : list string.
Variable HIERARCHICAL_CATEGORIES : list Category.t.
Variable METRIC_TO_CHALLENGE_MAP : gmap string string.

Local Abbreviation push_challenges := (push_challenges METRIC_TO_CHALLENGE_MAP).
Local Abbreviation subCategory_challenges :=
  (subCategory_challenges METRIC_TO_CHALLENGE_MAP).
Local Abbreviation challenge_entry := (challenge_entry METRIC_TO_CHALLENGE_MAP).
Local Abbreviation report_challenges :=
  (report_challenges HIERARCHICAL_CATEGORIES METRIC_TO_CHALLENGE_MAP).
Local Abbreviation createReportCardData :=
  (createReportCardData ALL_SCORE_FIELDS HIERARCHICAL_CATEGORIES
     METRIC_TO_CHALLENGE_MAP).

Lemma sum_of_scores {A} (scored : list (A * Z)) (a : Z) :
  fold_left (fun acc curr => acc + snd curr) scored a
  = fold_left Z.add (map snd scored) a.
Proof.
  revert a. induction scored as [|c scored IH]; intros a; simpl; [done|].
  apply IH.
Qed.

(** The loop over the scored metrics of a sub-category appends one entry
    for each of them whose score is at most 3. *)
Lemma push_entries (subCat : SubCategory.t) (scored : list (Metric.t * Z))
    (challenges : list Challenge.t) :
  fold_left
    (fun challenges curr =>
       let '(metric, score) := curr in
       if score <=? 3
       then
         challenges ++
           [Challenge.mk (SubCategory.name subCat)
              (JS.or_else (METRIC_TO_CHALLENGE_MAP !! Metric.key metric)
                 (low_metric_text (Metric.name metric)))]
       else challenges)
    scored challenges
  = challenges
    ++ map (fun c => challenge_entry subCat (fst c))
         (List.filter (fun c => snd c <=? 3) scored).
Proof.
  revert challenges.
  induction scored as [|[metric score] scored IH]; intros challenges; simpl.
  - by rewrite app_nil_r.
  - rewrite IH. destruct (score <=? 3); simpl; [|done].
    by rewrite <- app_assoc.
Qed.

Lemma push_challenges_cases (school : SchoolForAnalysis.t)
    (challenges : list Challenge.t) (subCat : SubCategory.t) :
  push_challenges school challenges subCat
  = challenges
    ++ (if Qlt_le_dec (subCategoryAverage school subCat) 3.5
        then map (fun c => challenge_entry subCat (fst c))
               (List.filter (fun c => snd c <=? 3)
                  (subCatMetricsWithScores school subCat))
        else []).
Proof.
  unfold push_challenges, subCategoryAverage, sumZ.
  set (scored := subCatMetricsWithScores school subCat).
  rewrite sum_of_scores, ltb_dec.
  destruct (Z.eqb_spec (len scored) 0) as [Hnil|Hne].
  - apply len_nil_iff in Hnil. rewrite Hnil.
    destruct (Qlt_le_dec _ 3.5); simpl; by rewrite app_nil_r.
  - destruct (Qlt_le_dec _ _).
    + apply push_entries.
    + by rewrite app_nil_r.
Qed.

Lemma push_challenges_app (school : SchoolForAnalysis.t)
    (challenges : list Challenge.t) (subCat : SubCategory.t) :
  push_challenges school challenges subCat
  = challenges ++ subCategory_challenges school subCat.
Proof.
  unfold subCategory_challenges.
  by rewrite (push_challenges_cases school challenges),
             (push_challenges_cases school []).
Qed.

Lemma push_all (school : SchoolForAnalysis.t) (subCats : list SubCategory.t)
    (challenges : list Challenge.t) :
  fold_left (push_challenges school) subCats challenges
  = challenges ++ flat_map (subCategory_challenges school) subCats.
Proof.
  revert challenges.
  induction subCats as [|subCat subCats IH]; intros challenges; simpl.
  - by rewrite app_nil_r.
  - by rewrite IH, push_challenges_app, <- app_assoc.
Qed.

Lemma report_challenges_from (school : SchoolForAnalysis.t)
    (categories : list Category.t) (challenges : list Challenge.t) :
  fold_left
    (fun challenges category =>
       fold_left (push_challenges school) (Category.subCategories category)
         challenges)
    categories challenges
  = challenges
    ++ flat_map (subCategory_challenges school)
         (flat_map Category.subCategories categories).
Proof.
  revert challenges.
  induction categories as [|category categories IH]; intros challenges; simpl.
  - by rewrite app_nil_r.
  - by rewrite IH, push_all, List.flat_map_app, <- app_assoc.
Qed.


End ReportCard.

(** ** Averages *)

Section Averages.

Variable ALL_SCORE_FIELDS : list string.
Variable HIERARCHICAL_CATEGORIES : list Category.t.
Variable BOOKLET_ISSUE_TO_METRICS_MAP : gmap string (list string).
Variable METRIC_TO_CHALLENGE_MAP : gmap string string.

Local Abbreviation metricsFor := (metricsFor BOOKLET_ISSUE_TO_METRICS_MAP).
Local Abbreviation calculateAverageForCategory :=
  (calculateAverageForCategory BOOKLET_ISSUE_TO_METRICS_MAP).
Local Abbreviation createReportCardData :=
  (createReportCardData ALL_SCORE_FIELDS HIERARCHICAL_CATEGORIES
     METRIC_TO_CHALLENGE_MAP).

Lemma slot_score_None (radix : Z) (raw : string) :
  slot_score radix raw = None
  <-> JS.parseInt raw radix = None
      \/ exists n, JS.parseInt raw radix = Some n /\ n <= 0.
Proof.
  unfold slot_score. destruct (JS.parseInt raw radix) as [n|].
  - destruct (Z.ltb_spec 0 n); split.
    + done.
    + intros [|(m & [= <-] & Hm)]; [done|lia].
    + intros _. right. by exists n.
    + done.
  - split; [by left|done].
Qed.

Lemma slot_score_Some (radix : Z) (raw : string) (n : Z) :
  JS.parseInt raw radix = Some n -> 0 < n -> slot_score radix raw = Some n.
Proof.
  intros Hparse Hn. unfold slot_score. rewrite Hparse.
  apply Z.ltb_lt in Hn. by rewrite Hn.
Qed.

(** Filtering the parsed slots keeps the set positive scores. *)
Lemma scored_values_slot_score {A} (school : SchoolForAnalysis.t)
    (key : A -> string) (l : list A) :
  scored_values (map (fun m => JS.parseInt (SchoolForAnalysis.get school (key m)) 10) l)
  = omap (fun m => slot_score 10 (SchoolForAnalysis.get school (key m))) l.
Proof.
  unfold scored_values.
  induction l as [|m l IH]; [done|].
  csimpl. rewrite IH. unfold slot_score, is_scored.
  destruct (JS.parseInt _ 10) as [n|]; [|done]. by destruct (0 <? n).
Qed.

Lemma omap_same_scores {A} (s s' : SchoolForAnalysis.t) (key : A -> string)
    (l : list A) :
  same_scores s s' ->
  omap (fun m => slot_score 10 (SchoolForAnalysis.get s (key m))) l
  = omap (fun m => slot_score 10 (SchoolForAnalysis.get s' (key m))) l.
Proof.
  intros Hsame. induction l as [|m l IH]; [done|].
  csimpl. rewrite IH. by destruct (Hsame (key m)) as [-> _].
Qed.

Lemma fold_left_add (l : list Z) (a : Z) : fold_left Z.add l a = a + sumZ l.
Proof.
  unfold sumZ. revert a. induction l as [|x l IH]; intros a; [simpl; lia|].
  cbn [fold_left]. rewrite (IH (a + x)), (IH (0 + x)). lia.
Qed.

Lemma sumZ_cons (x : Z) (l : list Z) : sumZ (x :: l) = x + sumZ l.
Proof. unfold sumZ at 1. simpl. apply fold_left_add. Qed.

Lemma sumZ_app (l k : list Z) : sumZ (l ++ k) = sumZ l + sumZ k.
Proof.
  unfold sumZ at 1. rewrite fold_left_app, fold_left_add. by unfold sumZ.
Qed.

(** The set positive scores of the items [l], read through [key], over a
    set of schools. *)
Local Abbreviation scores_by key schools l :=
  (flat_map
     (fun school =>
        omap (fun m => slot_score 10 (SchoolForAnalysis.get school (key m))) l)
     schools).

Lemma scores_by_same {A} (key : A -> string) (l : list A)
    (schools schools' : list SchoolForAnalysis.t) :
  Forall2 same_scores schools schools' ->
  scores_by key schools l = scores_by key schools' l.
Proof.
  induction 1 as [|s s' schools schools' Hs _ IH]; simpl; [done|].
  by rewrite IH, (omap_same_scores s s' key l Hs).
Qed.

Lemma fold_left_pointwise {A B} (f g : A -> B -> A) (l : list B) (a : A) :
  (forall a x, f a x = g a x) -> fold_left f l a = fold_left g l a.
Proof.
  intros Hfg. revert a. induction l as [|x l IH]; intros a; simpl; [done|].
  by rewrite Hfg, IH.
Qed.

(** The two nested loops of [calculateAverageForCategory]. *)
Lemma average_metrics (school : SchoolForAnalysis.t) (M : list string)
    (totalScore scoreCount : Z) :
  let scores :=
    omap (fun metric => slot_score 10 (SchoolForAnalysis.get school metric)) M in
  fold_left
    (fun '(totalScore, scoreCount) metric =>
       match JS.parseInt (SchoolForAnalysis.get school metric) 10 with
       | Some score =>
           if 0 <? score
           then (totalScore + score, scoreCount + 1)
           else (totalScore, scoreCount)
       | None => (totalScore, scoreCount)
       end)
    M (totalScore, scoreCount)
  = (totalScore + sumZ scores, scoreCount + len scores).
Proof.
  revert totalScore scoreCount.
  induction M as [|metric M IH]; intros totalScore scoreCount.
  - simpl. unfold sumZ, len. simpl. f_equal; lia.
  - simpl. unfold slot_score in *.
    destruct (JS.parseInt (SchoolForAnalysis.get school metric) 10) as [n|];
      [|apply IH].
    destruct (0 <? n); [|apply IH].
    rewrite IH. simpl. rewrite sumZ_cons, len_cons. unfold omap.
    f_equal; lia.
Qed.

Lemma average_schools (schools : list SchoolForAnalysis.t) (M : list string)
    (totalScore scoreCount : Z) :
  fold_left
    (fun st school =>
       fold_left
         (fun '(totalScore, scoreCount) metric =>
            match JS.parseInt (SchoolForAnalysis.get school metric) 10 with
            | Some score =>
                if 0 <? score
                then (totalScore + score, scoreCount + 1)
                else (totalScore, scoreCount)
            | None => (totalScore, scoreCount)
            end)
         M st)
    schools (totalScore, scoreCount)
  = (totalScore + sumZ (issue_scores schools M),
     scoreCount + len (issue_scores schools M)).
Proof.
  revert totalScore scoreCount.
  induction schools as [|school schools IH]; intros totalScore scoreCount.
  - simpl. unfold sumZ, len. simpl. f_equal; lia.
  - cbn [fold_left]. rewrite average_metrics, IH.
    unfold issue_scores. cbn [flat_map]. rewrite sumZ_app, len_app.
    f_equal; lia.
Qed.

(** [calculateAverageForCategory] is the mean of the set positive scores of
    the category's metrics over the school set, or 0 without any. *)
Lemma calculateAverageForCategory_mean (key : string)
    (schoolSet : list SchoolForAnalysis.t) :
  calculateAverageForCategory key schoolSet
  = average_or_zero (issue_scores schoolSet (metricsFor key)).
Proof.
  unfold calculateAverageForCategory.
  destruct (Z.eqb_spec (len (metricsFor key)) 0) as [HM|_]; simpl.
  { apply len_nil_iff in HM. rewrite HM. unfold issue_scores.
    by induction schoolSet. }
  destruct (Z.eqb_spec (len schoolSet) 0) as [HS|_]; simpl.
  { apply len_nil_iff in HS. by rewrite HS. }
  rewrite average_schools. by unfold average_or_zero.
Qed.

Lemma positive_or_zero {A} (tag : A) (o o' : option Z) :
  match o with Some n => if 0 <? n then Some n else None | None => None end
  = match o' with Some n => if 0 <? n then Some n else None | None => None end ->
  (if 0 <? JS.or_zero_Z o then [(tag, JS.or_zero_Z o)] else [])
  = (if 0 <? JS.or_zero_Z o' then [(tag, JS.or_zero_Z o')] else []).
Proof.
  destruct o as [n|], o' as [n'|]; unfold JS.or_zero_Z; simpl.
  - destruct (0 <? n) eqn:Hn, (0 <? n') eqn:Hn'; intros H;
      try discriminate H; [|reflexivity].
    injection H as ->. reflexivity.
  - destruct (0 <? n); intros H; [discriminate H|reflexivity].
  - destruct (0 <? n'); intros H; [discriminate H|reflexivity].
  - reflexivity.
Qed.

Lemma field_scores_cons (s : SchoolForAnalysis.t) (field : string)
    (fields : list string) :
  field_scores (field :: fields) s
  = (let v := JS.or_zero_Z (JS.parseInt (SchoolForAnalysis.get s field) 0) in
     if 0 <? v then [(field, v)] else [])
    ++ field_scores fields s.
Proof.
  unfold field_scores. cbn [map List.filter snd].
  by destruct (0 <? _).
Qed.

Lemma field_scores_same (s s' : SchoolForAnalysis.t) :
  same_scores s s' ->
  field_scores ALL_SCORE_FIELDS s = field_scores ALL_SCORE_FIELDS s'.
Proof.
  intros Hsame.
  induction ALL_SCORE_FIELDS as [|field fields IH]; [done|].
  rewrite !field_scores_cons, IH. f_equal. cbn zeta.
  apply positive_or_zero. destruct (Hsame field) as [_ H0]. exact H0.
Qed.

Lemma report_card_averages_same (analysisData analysisData' : AnalysisData.t)
    (schoolId schoolId' : Z) (card card' : SchoolReportCard.t) :
  createReportCardData (Some analysisData) schoolId = Some card ->
  createReportCardData (Some analysisData') schoolId' = Some card' ->
  same_scores (SchoolReportCard.school card) (SchoolReportCard.school card') ->
  SchoolReportCard.overallAverage card = SchoolReportCard.overallAverage card'
  /\ SchoolReportCard.domainAverages card = SchoolReportCard.domainAverages card'.
Proof.
  unfold createReportCardData.
  destruct (List.find _ _) as [found|]; [|done].
  destruct (List.find _ _) as [found'|]; [|done].
  intros [= <-] [= <-] Hcards. cbn [SchoolReportCard.school] in Hcards.
  cbn [SchoolReportCard.overallAverage SchoolReportCard.domainAverages].
  by rewrite (field_scores_same found found' Hcards).
Qed.


End Averages.

(** ** The zero slot and the sample runs *)

(** C10. A slot that parses to an integer at most 0 counts as an affected
    metric in the detail rows, yet leaves the issue-level counters and the
    affected flag as they are; on some input the detail list of a returned
    issue is therefore longer than its count of affected schools. *)
Theorem nonpositive_slot_asymmetry :
  (forall (school : SchoolForAnalysis.t) (metric : string) (n : Z)
          (st : Z * Z * bool),
      JS.parseInt (SchoolForAnalysis.get school metric) 10 = Some n ->
      n <= 0 ->
      is_low_for_detail school metric = true
      /\ visit_metric school st metric = st)
  /\ exists (challenges labels : gmap string string)
            (issue_metrics : gmap string (list string))
            (schools : list SchoolForAnalysis.t) (d : FullSystemicIssue.t)
            (issue : Issue.t),
      analyzeIssue challenges labels issue_metrics schools d = Some issue
      /\ Issue.affectedSchools issue < len (Issue.schoolDetails issue).
Proof.
  split.
  - intros school metric n [[low cnt] has] Hparse Hn.
    unfold is_low_for_detail, visit_metric. rewrite Hparse. split.
    + apply Z.leb_le. lia.
    + destruct (Z.ltb_spec 0 n); [lia|done].
  - exists Sample.challenge_texts, Sample.labels, Sample.issue_metrics,
      Sample.small_district, Sample.teaching_issue.
    eexists. split; [vm_compute; reflexivity|]. vm_compute. reflexivity.
Qed.

Lemma nonpositive_slot_asymmetry_witness :
  is_low_for_detail (Sample.analysed 2 Sample.zero_slot) "m1" = true
  /\ visit_metric (Sample.analysed 2 Sample.zero_slot) (0, 0, false) "m1"
     = (0, 0, false).
Proof.
  apply (proj1 nonpositive_slot_asymmetry _ "m1" 0).
  - vm_compute. reflexivity.
  - lia.
Defined.



(** A key without a slot reads as [undefined]. *)
Lemma get_absent (tier id : Z) (name : string)
    (scores : list (string * string)) (field : string) :
  field ∉ scores.*1 ->
  SchoolForAnalysis.get (Sample.analysed tier (Sample.school_of id name scores)) field
  = "undefined".
Proof.
  intros Habsent. unfold SchoolForAnalysis.get, School.get. simpl.
  by rewrite (not_elem_of_list_to_map_1 scores field Habsent).
Qed.




Lemma unaffected_issue_is_dropped_witness :
  List.Forall (fun issue => Issue.id issue <> "i3") Sample.district_issues.
Proof.
  apply List.Forall_forall.
  destruct (unaffected_issue_is_dropped
              Sample.challenge_texts Sample.labels Sample.issue_metrics
              Sample.plan_issues Sample.catalog
              Sample.district ["focus"] Sample.district_issues)
    as (_ & Hdropped & _).
  - vm_compute. reflexivity.
  - apply (Hdropped Sample.unmapped_issue). vm_compute. reflexivity.
Defined.

Lemma urgency_monotone_witness :
  urgencyOf 0.4 0.2 <= urgencyOf 0.5 0.2
  /\ urgencyOf 0.4 0.2 <= urgencyOf 0.4 0.3.
Proof.
  apply (urgency_monotone Sample.challenge_texts Sample.labels
           Sample.issue_metrics 0.4 0.5 0.2 0.3).
  - vm_compute. discriminate.
  - vm_compute. discriminate.
Defined.

Lemma detail_severity_thresholds_witness :
  exists detail,
    schoolDetail Sample.challenge_texts Sample.labels ["m1"; "m2"]
      (Sample.analysed 2 Sample.both_low) = Some detail
    /\ SchoolIssueDetail.severity detail = critical.
Proof.
  destruct (detail_severity_thresholds
              Sample.challenge_texts Sample.labels Sample.issue_metrics
              [Sample.analysed 2 Sample.both_low] "i1"
              (Sample.analysed 2 Sample.both_low))
    as (_ & Hdetail & _).
  - left. reflexivity.
  - destruct Hdetail as (detail & Hsome & _ & _ & _ & _ & _ & Hall).
    + vm_compute. reflexivity.
    + exists detail. split; [exact Hsome|]. apply Hall. vm_compute. reflexivity.
Defined.


(** * Further properties of the engine and of the editing steps *)

(** ** Sorting *)

Lemma sort_insert_HdRel {A} (in_order : A -> A -> bool) (x y : A) (l : list A) :
  in_order y x = true ->
  HdRel (fun a b => in_order a b = true) y l ->
  HdRel (fun a b => in_order a b = true) y (sort_insert in_order x l).
Proof.
  intros Hyx Hhd. destruct l as [|z l]; simpl.
  - by constructor.
  - destruct (in_order x z); constructor; [done|].
    by inversion Hhd.
Qed.

Lemma sort_insert_sorted {A} (in_order : A -> A -> bool) (x : A) (l : list A) :
  (forall a b, in_order a b = false -> in_order b a = true) ->
  Sorted (fun a b => in_order a b = true) l ->
  Sorted (fun a b => in_order a b = true) (sort_insert in_order x l).
Proof.
  intros Htotal. induction 1 as [|y l Hsorted IH Hhd]; simpl.
  - by repeat constructor.
  - destruct (in_order x y) eqn:Hxy.
    + constructor; [by constructor|by constructor].
    + constructor; [exact IH|].
      apply sort_insert_HdRel; [by apply Htotal|exact Hhd].
Qed.

Lemma Array_sort_sorted {A} (in_order : A -> A -> bool) (l : list A) :
  (forall a b, in_order a b = false -> in_order b a = true) ->
  Sorted (fun a b => in_order a b = true) (Array_sort in_order l).
Proof.
  intros Htotal. induction l as [|x l IH]; simpl; [constructor|].
  by apply sort_insert_sorted.
Qed.

(** Elements that the comparator ties keep their order. *)
Lemma sort_insert_stable {A} (in_order : A -> A -> bool) (p : A -> bool)
    (x : A) (l : list A) :
  (forall a b, p a = true -> p b = true -> in_order a b = true) ->
  List.filter p (sort_insert in_order x l) = List.filter p (x :: l).
Proof.
  intros Hties. induction l as [|y l IH]; [done|].
  cbn [sort_insert]. destruct (in_order x y) eqn:Hxy; [done|].
  cbn [List.filter] in *. rewrite IH.
  destruct (p x) eqn:Hx, (p y) eqn:Hy; try done.
  rewrite (Hties x y Hx Hy) in Hxy. done.
Qed.

Lemma Array_sort_stable {A} (in_order : A -> A -> bool) (p : A -> bool)
    (l : list A) :
  (forall a b, p a = true -> p b = true -> in_order a b = true) ->
  List.filter p (Array_sort in_order l) = List.filter p l.
Proof.
  intros Hties. induction l as [|x l IH]; [done|].
  cbn [Array_sort fold_right]. fold (Array_sort in_order l).
  rewrite (sort_insert_stable in_order p x _ Hties).
  cbn [List.filter]. by rewrite IH.
Qed.

Lemma Sorted_weaken {A} (R R' : A -> A -> Prop) (l : list A) :
  (forall a b, R a b -> R' a b) -> Sorted R l -> Sorted R' l.
Proof.
  intros HR. induction 1 as [|x l _ IH Hhd]; constructor; [done|].
  destruct Hhd; constructor. by apply HR.
Qed.

Lemma size_list_to_set_le (l : list Z) :
  (size (list_to_set l : gset Z) <= length l)%nat.
Proof.
  induction l as [|x l IH]; [vm_compute; lia|].
  change (list_to_set (x :: l) : gset Z) with ({[x]} ∪ list_to_set l : gset Z).
  cbn [length]. rewrite size_union_alt, size_singleton.
  pose proof (subseteq_size (list_to_set l ∖ {[x]}) (list_to_set l : gset Z)) as Hle.
  assert (Hsub : (list_to_set l ∖ {[x]} : gset Z) ⊆ list_to_set l)
    by (by apply subseteq_difference_l).
  specialize (Hle Hsub). lia.
Qed.

(** ** Ranking and bounds of the identified issues *)

Section IssueRanking.

Variable METRIC_TO_CHALLENGE_MAP : gmap string string.
Variable FIELD_HEBREW_MAP : gmap string string.
Variable BOOKLET_ISSUE_TO_METRICS_MAP : gmap string (list string).
Variable BOOKLET_TO_PLAN_ISSUES_MAP : gmap string (list string).
Variable issuesAndGoalsData : list FullSystemicIssue.t.

Local Abbreviation metricsFor := (metricsFor BOOKLET_ISSUE_TO_METRICS_MAP).
Local Abbreviation analyzeIssue :=
  (analyzeIssue METRIC_TO_CHALLENGE_MAP FIELD_HEBREW_MAP BOOKLET_ISSUE_TO_METRICS_MAP).
Local Abbreviation buildSchoolDetails :=
  (buildSchoolDetails METRIC_TO_CHALLENGE_MAP FIELD_HEBREW_MAP BOOKLET_ISSUE_TO_METRICS_MAP).
Local Abbreviation schoolDetail :=
  (schoolDetail METRIC_TO_CHALLENGE_MAP FIELD_HEBREW_MAP).
Local Abbreviation calculateAverageForCategory :=
  (calculateAverageForCategory BOOKLET_ISSUE_TO_METRICS_MAP).
Local Abbreviation analyzeSchoolData :=
  (analyzeSchoolData METRIC_TO_CHALLENGE_MAP FIELD_HEBREW_MAP
     BOOKLET_ISSUE_TO_METRICS_MAP BOOKLET_TO_PLAN_ISSUES_MAP issuesAndGoalsData).
Local Abbreviation relevant_ids areas :=
  (flat_map (fun area => default [] (BOOKLET_TO_PLAN_ISSUES_MAP !! area)) areas).

(** The catalogue entries that the selected focus areas make relevant, in
    catalogue order. *)
Local Abbreviation relevant_entries areas :=
  (List.filter
     (fun d => bool_decide (FullSystemicIssue.id d ∈ relevant_ids areas))
     issuesAndGoalsData).

Lemma analyzeSchoolData_sorted (schools : list SchoolForAnalysis.t)
    (areas : list string) (issues : list Issue.t) :
  analyzeSchoolData schools areas = Some issues ->
  issues
  = Array_sort (fun a b => Issue.urgency b - Issue.urgency a <=? 0)
      (omap (analyzeIssue schools) (relevant_entries areas)).
Proof.
  unfold analyzeSchoolData.
  destruct ((len schools =? 0) || (len areas =? 0)); [done|].
  intros [= <-]. do 2 f_equal. apply List.filter_ext. intros d.
  apply bool_decide_ext. by rewrite elem_of_list_to_set.
Qed.

Lemma analyzeSchoolData_guard (schools : list SchoolForAnalysis.t)
    (areas : list string) (issues : list Issue.t) :
  analyzeSchoolData schools areas = Some issues ->
  0 < len schools /\ 0 < len areas.
Proof.
  unfold analyzeSchoolData.
  destruct (Z.eqb_spec (len schools) 0) as [|Hs]; [done|].
  destruct (Z.eqb_spec (len areas) 0) as [|Ha]; [done|].
  intros _. pose proof (len_nonneg schools). pose proof (len_nonneg areas). lia.
Qed.

(** X1. The issues are handed over in descending order of urgency: every
    issue has at least the urgency of every issue after it. *)
Theorem issues_ranked_by_urgency (schools : list SchoolForAnalysis.t)
    (areas : list string) (issues : list Issue.t) :
  analyzeSchoolData schools areas = Some issues ->
  StronglySorted (fun a b => Issue.urgency b <= Issue.urgency a) issues.
Proof.
  intros Hrun. rewrite (analyzeSchoolData_sorted _ _ _ Hrun).
  apply Sorted_StronglySorted.
  { intros a b c Hab Hbc. lia. }
  eapply Sorted_weaken; [|apply Array_sort_sorted].
  - intros a b Hab. simpl in Hab. apply Z.leb_le in Hab. lia.
  - intros a b Hab. apply Z.leb_gt in Hab. apply Z.leb_le. lia.
Qed.

(** X2. The ranking is stable: the issues of any one urgency appear in the
    order of their catalogue entries. *)
Theorem equal_urgency_keeps_catalogue_order (schools : list SchoolForAnalysis.t)
    (areas : list string) (issues : list Issue.t) (u : Z) :
  analyzeSchoolData schools areas = Some issues ->
  List.filter (fun issue => Issue.urgency issue =? u) issues
  = List.filter (fun issue => Issue.urgency issue =? u)
      (omap (analyzeIssue schools) (relevant_entries areas)).
Proof.
  intros Hrun. rewrite (analyzeSchoolData_sorted _ _ _ Hrun).
  apply Array_sort_stable. intros a b Ha Hb.
  apply Z.eqb_eq in Ha. apply Z.eqb_eq in Hb. apply Z.leb_le. lia.
Qed.

Lemma div_unit (a b : Z) :
  0 <= a <= b -> 0 < b -> (0 <= JS.div a b <= 1)%Q.
Proof.
  intros [Ha Hab] Hb. unfold JS.div.
  assert (Hb' : (0 < inject_Z b)%Q) by (unfold Qlt; simpl; lia).
  assert (Ha' : (0 <= inject_Z a)%Q) by (unfold Qle; simpl; lia).
  assert (Hab' : (inject_Z a <= inject_Z b)%Q) by (unfold Qle; simpl; lia).
  split.
  - apply Qle_shift_div_l; [exact Hb'|]. by rewrite Qmult_0_l.
  - apply Qle_shift_div_r; [exact Hb'|]. by rewrite Qmult_1_l.
Qed.

Lemma urgencyOf_range (scope sev : Q) :
  (0 <= scope <= 1)%Q -> (0 <= sev <= 1)%Q -> 0 <= urgencyOf scope sev <= 100.
Proof.
  intros [Hs0 Hs1] [Hv0 Hv1]. unfold urgencyOf, finalScoreOf.
  set (x := ((scope * 0.6 + sev * 0.4) * 100)%Q).
  assert (Hlo : (0 <= x)%Q) by (unfold x; lra).
  assert (Hhi : (x <= 100)%Q) by (unfold x; lra).
  apply Math_round_le in Hlo. apply Math_round_le in Hhi.
  change (JS.Math_round 0) with 0 in Hlo.
  change (JS.Math_round 100) with 100 in Hhi. lia.
Qed.

Lemma affected_count_le (schools : list SchoolForAnalysis.t) (M : list string) :
  0 <= affectedSchoolsCount_spec schools M <= len schools.
Proof.
  unfold affectedSchoolsCount_spec, len. split; [lia|].
  pose proof (size_list_to_set_le
                (map SchoolForAnalysis.id (List.filter (affected_by M) schools)))
    as Hsize.
  rewrite length_map in Hsize.
  pose proof (List.filter_length_le (affected_by M) schools). lia.
Qed.

Lemma low_scores_le (schools : list SchoolForAnalysis.t) (M : list string) :
  0 <= totalLowScores_spec schools M <= Z.max (totalScoresCount_spec schools M) 1.
Proof.
  unfold totalLowScores_spec, totalScoresCount_spec, len. split; [lia|].
  pose proof (List.filter_length_le (fun n => n <=? 2) (issue_scores schools M)).
  lia.
Qed.

(** X3. Every issue handed over reports at least one and at most all of the
    analysed schools as affected, and its urgency is an integer between 0 and
    100. *)
Theorem issue_counts_and_urgency_bounds (schools : list SchoolForAnalysis.t)
    (areas : list string) (issues : list Issue.t) (issue : Issue.t) :
  analyzeSchoolData schools areas = Some issues ->
  In issue issues ->
  1 <= Issue.affectedSchools issue <= Issue.totalSchools issue
  /\ Issue.totalSchools issue = len schools
  /\ 0 <= Issue.urgency issue <= 100.
Proof.
  intros Hrun Hissue.
  destruct (analyzeSchoolData_guard _ _ _ Hrun) as [Hschools _].
  apply (analyzeSchoolData_In _ _ _ _ _ _ _ _ Hrun) in Hissue as (d & _ & _ & Hd).
  destruct (analyzeIssue_spec METRIC_TO_CHALLENGE_MAP FIELD_HEBREW_MAP
              BOOKLET_ISSUE_TO_METRICS_MAP schools d) as [Hnone Hsome].
  set (M := metricsFor (FullSystemicIssue.id d)) in *.
  pose proof (affected_count_le schools M) as Hcount.
  destruct (Z.eq_dec (affectedSchoolsCount_spec schools M) 0) as [Hz|Hnz].
  { rewrite (Hnone Hz) in Hd. done. }
  destruct (Hsome Hnz) as (issue' & Hissue' & _ & Haff & Htotal & Hurg & _).
  rewrite Hd in Hissue'. injection Hissue' as <-.
  rewrite Haff, Htotal, Hurg. split; [lia|]. split; [done|].
  apply urgencyOf_range.
  - unfold scopeScore_spec. apply div_unit; lia.
  - unfold severityScore_spec. apply div_unit; [apply low_scores_le|lia].
Qed.

Lemma omap_length_le {A B} (f : A -> option B) (l : list A) :
  (length (omap f l) <= length l)%nat.
Proof.
  induction l as [|x l IH]; [done|]. csimpl. destruct (f x); simpl; lia.
Qed.

Lemma filter_omap_length {A B} (p : A -> bool) (f : A -> option B) (l : list A) :
  (forall x, p x = true -> is_Some (f x)) ->
  (length (List.filter p l) <= length (omap f l))%nat.
Proof.
  intros Hpf. induction l as [|x l IH]; [done|]. csimpl.
  destruct (p x) eqn:Hp.
  - destruct (Hpf x Hp) as [y ->]. simpl. lia.
  - destruct (f x); simpl; lia.
Qed.

Lemma detail_severity_not_low (percentage : Q) : detail_severity percentage <> low.
Proof.
  unfold detail_severity.
  destruct (JS.geb percentage 70); [done|].
  by destruct (JS.geb percentage 40).
Qed.

(** What a detail row holds. *)
Lemma schoolDetail_Some (M : list string) (school : SchoolForAnalysis.t)
    (detail : SchoolIssueDetail.t) :
  schoolDetail M school = Some detail ->
  0 < affectedMetricCount M school
  /\ SchoolIssueDetail.schoolId detail = SchoolForAnalysis.id school
  /\ SchoolIssueDetail.schoolName detail = SchoolForAnalysis.name school
  /\ SchoolIssueDetail.performanceTier detail = SchoolForAnalysis.tier school
  /\ SchoolIssueDetail.severity detail <> low
  /\ len (SchoolIssueDetail.affectedMetrics detail) = affectedMetricCount M school.
Proof.
  unfold schoolDetail. fold (affectedMetricCount M school).
  destruct (Z.eqb_spec (affectedMetricCount M school) 0) as [|Hne]; [done|].
  intros [= <-]. simpl.
  assert (0 <= affectedMetricCount M school) by apply len_nonneg.
  repeat split; try done; try lia.
  - apply detail_severity_not_low.
  - unfold len, affectedMetricCount. by rewrite length_map.
Qed.

Lemma buildSchoolDetails_In (schools : list SchoolForAnalysis.t) (key : string)
    (detail : SchoolIssueDetail.t) :
  In detail (buildSchoolDetails schools key) ->
  exists school, In school schools
                 /\ schoolDetail (metricsFor key) school = Some detail.
Proof.
  unfold buildSchoolDetails.
  destruct (len (metricsFor key) =? 0); [done|].
  intros Hin. apply list_elem_of_In, list_elem_of_omap in Hin as (school & Hs & Hd).
  exists school. split; [by apply list_elem_of_In|done].
Qed.


Lemma affected_has_detail (M : list string) (school : SchoolForAnalysis.t) :
  affected_by M school = true -> is_Some (schoolDetail M school).
Proof.
  intros Haff. unfold schoolDetail.
  destruct (Z.eqb_spec (len (List.filter (is_low_for_detail school) M)) 0)
    as [Hnil|_]; [|by eexists].
  exfalso. apply len_nil_iff in Hnil.
  apply existsb_exists in Haff as (metric & Hin & Hlow).
  assert (Hfil : In metric (List.filter (is_low_for_detail school) M)).
  { apply filter_In. split; [done|]. unfold is_low_for_detail.
    unfold slot_score in Hlow.
    destruct (JS.parseInt _ 10) as [n|]; [|done]. by destruct (0 <? n). }
  rewrite Hnil in Hfil. done.
Qed.

(** X5. The detail list of an issue is never shorter than its count of
    affected schools: every school that counts as affected has a detail
    row. *)
Theorem affected_schools_have_detail_rows (schools : list SchoolForAnalysis.t)
    (areas : list string) (issues : list Issue.t) (issue : Issue.t) :
  analyzeSchoolData schools areas = Some issues ->
  In issue issues ->
  Issue.affectedSchools issue <= len (Issue.schoolDetails issue).
Proof.
  intros Hrun Hissue.
  apply (analyzeSchoolData_In _ _ _ _ _ _ _ _ Hrun) in Hissue as (d & _ & _ & Hd).
  destruct (analyzeIssue_spec METRIC_TO_CHALLENGE_MAP FIELD_HEBREW_MAP
              BOOKLET_ISSUE_TO_METRICS_MAP schools d) as [Hnone Hsome].
  set (M := metricsFor (FullSystemicIssue.id d)) in *.
  destruct (Z.eq_dec (affectedSchoolsCount_spec schools M) 0) as [Hz|Hnz].
  { rewrite (Hnone Hz) in Hd. done. }
  destruct (Hsome Hnz) as (issue' & Hissue' & _ & Haff & _ & _ & _ & Hdetails).
  rewrite Hd in Hissue'. injection Hissue' as <-.
  rewrite Haff, Hdetails. unfold buildSchoolDetails. fold M.
  destruct (Z.eqb_spec (len M) 0) as [HM|_].
  - apply len_nil_iff in HM. exfalso. apply Hnz.
    unfold affectedSchoolsCount_spec. rewrite HM.
    assert (Hnone' : List.filter (affected_by []) schools = []).
    { clear. induction schools as [|s l IH]; simpl; done. }
    rewrite Hnone'. reflexivity.
  - unfold affectedSchoolsCount_spec, len.
    pose proof (size_list_to_set_le
                  (map SchoolForAnalysis.id (List.filter (affected_by M) schools)))
      as Hsize.
    rewrite length_map in Hsize.
    pose proof (filter_omap_length (affected_by M) (schoolDetail M) schools
                  (affected_has_detail M)).
    lia.
Qed.

Lemma issue_scores_positive (schools : list SchoolForAnalysis.t) (M : list string) :
  Forall (fun n => 1 <= n) (issue_scores schools M).
Proof.
  apply List.Forall_forall. intros n Hin. unfold issue_scores in Hin.
  apply in_flat_map in Hin as (school & _ & Hin).
  apply list_elem_of_In, list_elem_of_omap in Hin as (metric & _ & Hscore).
  unfold slot_score in Hscore.
  destruct (JS.parseInt _ 10) as [m|]; [|done].
  destruct (Z.ltb_spec 0 m); [|done]. injection Hscore as <-. lia.
Qed.

Lemma sumZ_ge_len (l : list Z) : Forall (fun n => 1 <= n) l -> len l <= sumZ l.
Proof.
  induction 1 as [|x l Hx _ IH]; [done|].
  rewrite sumZ_cons, len_cons. lia.
Qed.

Lemma average_or_zero_ge_1 (l : list Z) :
  l <> [] -> Forall (fun n => 1 <= n) l -> (1 <= average_or_zero l)%Q.
Proof.
  intros Hne Hpos. unfold average_or_zero.
  assert (Hlen : 0 < len l).
  { pose proof (len_nonneg l).
    destruct (Z.eq_dec (len l) 0) as [Hz|Hnz]; [|lia].
    apply len_nil_iff in Hz. done. }
  destruct (Z.ltb_spec 0 (len l)); [|lia].
  pose proof (sumZ_ge_len l Hpos) as Hsum. unfold JS.div.
  apply Qle_shift_div_l; [unfold Qlt; simpl; lia|].
  rewrite Qmult_1_l. unfold Qle. simpl. lia.
Qed.

(** X6. The average of a category over a school set is 0 exactly when no
    school of the set has a set positive score for a metric of the category,
    and is at least 1 otherwise; so a result of 0 always means that there is
    no data. *)
Theorem category_average_zero_iff_no_data (key : string)
    (schoolSet : list SchoolForAnalysis.t) :
  ((calculateAverageForCategory key schoolSet == 0)%Q
   <-> issue_scores schoolSet (metricsFor key) = [])
  /\ (issue_scores schoolSet (metricsFor key) <> [] ->
      (1 <= calculateAverageForCategory key schoolSet)%Q).
Proof.
  rewrite calculateAverageForCategory_mean.
  pose proof (issue_scores_positive schoolSet (metricsFor key)) as Hpos.
  destruct (issue_scores schoolSet (metricsFor key)) as [|n l] eqn:Hscores.
  - split; [|done]. by split.
  - assert (Hge : (1 <= average_or_zero (n :: l))%Q)
      by (by apply average_or_zero_ge_1).
    split; [|done]. split; [|done].
    intros Hzero. rewrite Hzero in Hge. exfalso. revert Hge.
    unfold Qle. simpl. lia.
Qed.

(** X7. Every issue handed over is built from a catalogue entry that a
    selected focus area lists, and copies its id, title, goal and category;
    when the selected areas list no issue, nothing is handed over. *)
Theorem issues_come_from_selected_areas (schools : list SchoolForAnalysis.t)
    (areas : list string) (issues : list Issue.t) :
  analyzeSchoolData schools areas = Some issues ->
  (forall issue,
     In issue issues ->
     exists d,
       In d issuesAndGoalsData
       /\ In (FullSystemicIssue.id d) (relevant_ids areas)
       /\ Issue.id issue = FullSystemicIssue.id d
       /\ Issue.name issue = FullSystemicIssue.title d
       /\ Issue.description issue = FullSystemicIssue.principalGoal d
       /\ Issue.category issue = FullSystemicIssue.category d)
  /\ (relevant_ids areas = [] -> issues = []).
Proof.
  intros Hrun.
  assert (Hfrom : forall issue,
             In issue issues ->
             exists d,
               In d issuesAndGoalsData
               /\ In (FullSystemicIssue.id d) (relevant_ids areas)
               /\ Issue.id issue = FullSystemicIssue.id d
               /\ Issue.name issue = FullSystemicIssue.title d
               /\ Issue.description issue = FullSystemicIssue.principalGoal d
               /\ Issue.category issue = FullSystemicIssue.category d).
  { intros issue Hissue.
    apply (analyzeSchoolData_In _ _ _ _ _ _ _ _ Hrun) in Hissue
      as (d & Hd & Hrel & Hissue).
    exists d. split; [done|]. split; [done|].
    unfold analyzeIssue in Hissue.
    destruct (_ =? 0) in Hissue; [done|]. by injection Hissue as <-. }
  split; [exact Hfrom|].
  intros Hnone. destruct issues as [|issue issues']; [done|].
  destruct (Hfrom issue) as (d & _ & Hrel & _); [by left|].
  rewrite Hnone in Hrel. done.
Qed.

(** The scores of a school set split by tier. *)
Lemma scores_split_by_tier (M : list string) (schools : list SchoolForAnalysis.t) :
  let tierSet k := List.filter (fun s => SchoolForAnalysis.tier s =? k) schools in
  Forall (fun s => SchoolForAnalysis.tier s = 1 \/ SchoolForAnalysis.tier s = 2
                   \/ SchoolForAnalysis.tier s = 3) schools ->
  sumZ (issue_scores schools M)
  = sumZ (issue_scores (tierSet 1) M) + sumZ (issue_scores (tierSet 2) M)
    + sumZ (issue_scores (tierSet 3) M)
  /\ len (issue_scores schools M)
     = len (issue_scores (tierSet 1) M) + len (issue_scores (tierSet 2) M)
       + len (issue_scores (tierSet 3) M).
Proof.
  intros tierSet. unfold tierSet. clear tierSet.
  induction 1 as [|s l Hs _ [IHsum IHlen]]; [done|].
  rewrite (issue_scores_cons s l), sumZ_app, len_app, IHsum, IHlen.
  cbn [List.filter].
  destruct Hs as [Hs|[Hs|Hs]]; rewrite Hs;
    cbn -[issue_scores sumZ len Z.add];
    rewrite (issue_scores_cons s (List.filter _ l)), sumZ_app, len_app; lia.
Qed.

Lemma average_times_count (l : list Z) :
  (average_or_zero l * inject_Z (len l) == inject_Z (sumZ l))%Q.
Proof.
  unfold average_or_zero. destruct (Z.ltb_spec 0 (len l)) as [Hpos|Hzero].
  - unfold JS.div. field. unfold Qeq. simpl. lia.
  - assert (Hnil : l = []).
    { apply len_nil_iff. pose proof (len_nonneg l). lia. }
    rewrite Hnil. reflexivity.
Qed.


End IssueRanking.

(** ** The issue selection step *)

Lemma includes_In (arr : list string) (x : string) :
  includes arr x = true <-> In x arr.
Proof.
  unfold includes. rewrite existsb_exists. split.
  - intros (y & Hy & Heq). apply String.eqb_eq in Heq. by subst.
  - intros Hx. exists x. split; [done|]. apply String.eqb_refl.
Qed.

Lemma includes_not_In (arr : list string) (x : string) :
  includes arr x = false <-> ~ In x arr.
Proof.
  rewrite <- includes_In. by destruct (includes arr x).
Qed.

Lemma filter_other_In (prev : list string) (issueId x : string) :
  In x (List.filter (fun id => negb (String.eqb id issueId)) prev)
  <-> In x prev /\ x <> issueId.
Proof.
  rewrite filter_In, negb_true_iff, String.eqb_neq. done.
Qed.

Lemma filter_absent (prev : list string) (issueId : string) :
  ~ In issueId prev ->
  List.filter (fun id => negb (String.eqb id issueId)) prev = prev.
Proof.
  induction prev as [|y prev IH]; [done|]. intros Hnot. cbn [List.filter].
  destruct (String.eqb_spec y issueId) as [->|Hne]; simpl.
  - exfalso. apply Hnot. by left.
  - rewrite IH; [done|]. intros Hin. apply Hnot. by right.
Qed.

(** X9. A selection without repetitions and with at most three issues stays
    so after any click on an issue. *)
Theorem selection_stays_small (prev : list string) (issueId : string) :
  List.NoDup prev -> len prev <= 3 ->
  List.NoDup (handleIssueSelection prev issueId)
  /\ len (handleIssueSelection prev issueId) <= 3.
Proof.
  intros Hnodup Hlen. unfold handleIssueSelection.
  destruct (includes prev issueId) eqn:Hinc.
  - split; [by apply List.NoDup_filter|].
    unfold len in *.
    pose proof (List.filter_length_le
                  (fun id => negb (String.eqb id issueId)) prev). lia.
  - destruct (Z.ltb_spec (len prev) 3) as [Hlt|_]; [|done].
    apply includes_not_In in Hinc. split.
    + apply List.NoDup_app; [done| |].
      * apply List.NoDup_cons; [by intros []|apply List.NoDup_nil].
      * intros x Hx [<-|[]]. by apply Hinc.
    + rewrite len_app. unfold len in *. simpl. lia.
Qed.

(** X10. After a click on an issue, that issue is selected exactly when it
    was not selected before and fewer than three issues were; every other
    issue keeps its state. *)
Theorem click_toggles_one_issue (prev : list string) (issueId x : string) :
  In x (handleIssueSelection prev issueId)
  <-> (x <> issueId /\ In x prev)
      \/ (x = issueId /\ ~ In issueId prev /\ len prev < 3).
Proof.
  unfold handleIssueSelection.
  destruct (includes prev issueId) eqn:Hinc.
  - apply includes_In in Hinc. rewrite filter_other_In. split.
    + intros [Hx Hne]. by left.
    + intros [[Hne Hx]|(_ & Hnot & _)]; [done|]. by destruct Hnot.
  - apply includes_not_In in Hinc.
    destruct (Z.ltb_spec (len prev) 3) as [Hlt|Hge].
    + rewrite in_app_iff. split.
      * intros [Hx|[<-|[]]]; [|by right].
        left. split; [|done]. intros ->. by apply Hinc.
      * intros [[_ Hx]|(-> & _ & _)]; [by left|]. right. by left.
    + split.
      * intros Hx. left. split; [|done]. intros ->. by apply Hinc.
      * intros [[_ Hx]|(_ & _ & Hlt)]; [done|lia].
Qed.

(** X11. Selecting an issue and clicking it again restores the selection as
    it was. *)
Theorem select_then_deselect (prev : list string) (issueId : string) :
  ~ In issueId prev -> len prev < 3 ->
  handleIssueSelection (handleIssueSelection prev issueId) issueId = prev.
Proof.
  intros Hnot Hlt. unfold handleIssueSelection at 2.
  apply includes_not_In in Hnot as Hinc. rewrite Hinc.
  destruct (Z.ltb_spec (len prev) 3); [|lia].
  unfold handleIssueSelection.
  assert (Hnow : includes (prev ++ [issueId]) issueId = true).
  { apply includes_In, in_app_iff. right. by left. }
  rewrite Hnow, List.filter_app, (filter_absent prev issueId Hnot).
  cbn [List.filter]. rewrite String.eqb_refl. simpl. apply app_nil_r.
Qed.

Lemma StronglySorted_filter {A} (R : A -> A -> Prop) (p : A -> bool) (l : list A) :
  StronglySorted R l -> StronglySorted R (List.filter p l).
Proof.
  induction 1 as [|x l _ IH Hall]; simpl; [constructor|].
  destruct (p x); [|done]. constructor; [done|].
  apply List.Forall_forall. intros y Hy. apply filter_In in Hy as [Hy _].
  revert y Hy. by apply List.Forall_forall.
Qed.

Lemma NoDup_map_filter {A B} (f : A -> B) (p : A -> bool) (l : list A) :
  List.NoDup (map f l) -> List.NoDup (map f (List.filter p l)).
Proof.
  induction l as [|x l IH]; simpl; [done|].
  intros Hnodup. apply List.NoDup_cons_iff in Hnodup as [Hx Hl].
  destruct (p x); simpl; [|by apply IH].
  apply List.NoDup_cons; [|by apply IH].
  intros Hin. apply Hx. apply in_map_iff in Hin as (y & Hy & Hin).
  apply filter_In in Hin as [Hin _]. apply in_map_iff. by exists y.
Qed.

(** X12. The issues handed to the next step are exactly the identified
    issues whose id is selected, in their ranking order; when the identified
    issues have distinct ids, they are no more than the selected ids. *)
Theorem continue_passes_selected_issues (issues : list Issue.t)
    (selectedIssues : list string) :
  (forall issue,
     In issue (handleContinue issues selectedIssues)
     <-> In issue issues /\ In (Issue.id issue) selectedIssues)
  /\ (StronglySorted (fun a b => Issue.urgency b <= Issue.urgency a) issues ->
      StronglySorted (fun a b => Issue.urgency b <= Issue.urgency a)
        (handleContinue issues selectedIssues))
  /\ (List.NoDup (map Issue.id issues) ->
      len (handleContinue issues selectedIssues) <= len selectedIssues).
Proof.
  unfold handleContinue. split; [|split].
  - intros issue. by rewrite filter_In, includes_In.
  - apply StronglySorted_filter.
  - intros Hnodup.
    pose proof (NoDup_map_filter Issue.id
                  (fun issue => includes selectedIssues (Issue.id issue))
                  issues Hnodup) as Hnd.
    apply (List.NoDup_incl_length (l' := selectedIssues)) in Hnd.
    + unfold len. rewrite length_map in Hnd. lia.
    + intros id Hid. apply in_map_iff in Hid as (issue & <- & Hin).
      apply filter_In in Hin as [_ Hsel]. by apply includes_In.
Qed.

Lemma Sorted_weaken_Forall {A} (P : A -> Prop) (R R' : A -> A -> Prop)
    (l : list A) :
  (forall a b, P a -> P b -> R a b -> R' a b) ->
  Forall P l -> Sorted R l -> Sorted R' l.
Proof.
  intros HR HP. induction 1 as [|x l Hs IH Hhd]; [constructor|].
  apply List.Forall_cons_iff in HP as [Hx Hl].
  constructor; [by apply IH|].
  destruct Hhd as [|y l' Hxy]; constructor.
  apply List.Forall_cons_iff in Hl as [Hy _]. by apply HR.
Qed.

(** The rank of a row in the severity ordering of the details view. *)
Local Abbreviation severity_rank detail :=
  (default 0 (severityOrder (SchoolIssueDetail.severity detail))).

(** X13. The details view shows the same rows as the issue holds, ordered by
    descending number of affected metrics or, for rows that are critical,
    high or medium, by descending severity; rows of equal severity keep
    their order. *)
Theorem sortedDetails_ordered (details : list SchoolIssueDetail.t) :
  (forall sortBy, Permutation (sortedDetails details sortBy) details)
  /\ StronglySorted
       (fun a b => len (SchoolIssueDetail.affectedMetrics b)
                   <= len (SchoolIssueDetail.affectedMetrics a))
       (sortedDetails details by_affectedCount)
  /\ (Forall (fun d => SchoolIssueDetail.severity d <> low) details ->
      StronglySorted (fun a b => severity_rank b <= severity_rank a)
        (sortedDetails details by_severity))
  /\ (forall s,
        List.filter (fun d => same_severity (SchoolIssueDetail.severity d) s)
          (sortedDetails details by_severity)
        = List.filter (fun d => same_severity (SchoolIssueDetail.severity d) s)
            details).
Proof.
  unfold sortedDetails. split; [|split; [|split]].
  - intros sortBy. apply Array_sort_perm.
  - apply Sorted_StronglySorted; [intros a b c; lia|].
    eapply Sorted_weaken; [|apply Array_sort_sorted].
    + intros a b Hab. simpl in Hab. apply Z.leb_le in Hab. lia.
    + intros a b Hab. simpl in *. apply Z.leb_gt in Hab. apply Z.leb_le. lia.
  - intros Hnolow. apply Sorted_StronglySorted; [intros a b c; lia|].
    eapply (Sorted_weaken_Forall
              (fun d => SchoolIssueDetail.severity d <> low));
      [| |apply Array_sort_sorted].
    + intros a b Ha Hb Hab. simpl in Hab.
      destruct (SchoolIssueDetail.severity a), (SchoolIssueDetail.severity b);
        try done; simpl in *; apply Z.leb_le in Hab; lia.
    + apply List.Forall_forall. intros d Hd.
      apply (Permutation_in _ (Array_sort_perm _ details)) in Hd.
      revert d Hd. by apply List.Forall_forall.
    + intros a b Hab. simpl in *.
      destruct (SchoolIssueDetail.severity a), (SchoolIssueDetail.severity b);
        try done; simpl in *; apply Z.leb_gt in Hab; apply Z.leb_le; lia.
  - intros s. apply Array_sort_stable. intros a b Ha Hb. simpl.
    by destruct (SchoolIssueDetail.severity a),
         (SchoolIssueDetail.severity b), s.
Qed.

(** ** Editing the score table *)

Section Editing.

Variable ALL_SCORE_FIELDS : list string.

Local Abbreviation createEmptySchool := (createEmptySchool ALL_SCORE_FIELDS).
Local Abbreviation addSchool := (addSchool ALL_SCORE_FIELDS).
Local Abbreviation getTier := (getTier ALL_SCORE_FIELDS).
Local Abbreviation performAnalysis := (performAnalysis ALL_SCORE_FIELDS).

Lemma blank_slots_lookup (fields : list string) (slots : gmap string string)
    (field : string) :
  fold_left (fun slots f => <[f := ""]> slots) fields slots !! field
  = if includes fields field then Some "" else slots !! field.
Proof.
  revert slots. induction fields as [|f fields IH]; intros slots; [done|].
  cbn [fold_left]. rewrite IH. unfold includes. cbn [existsb].
  fold (includes fields field).
  destruct (includes fields field); [by rewrite orb_true_r|].
  rewrite orb_false_r.
  destruct (String.eqb_spec field f) as [->|Hne].
  - by rewrite lookup_insert_eq.
  - by rewrite lookup_insert_ne.
Qed.

Lemma createEmptySchool_get (id : Z) (field : string) :
  School.get (createEmptySchool id) field
  = if includes ALL_SCORE_FIELDS field then "" else "undefined".
Proof.
  unfold School.get, createEmptySchool. cbn [School.slots].
  rewrite blank_slots_lookup, lookup_empty.
  by destruct (includes ALL_SCORE_FIELDS field).
Qed.

Lemma blank_row_unscored (id : Z) (field : string) :
  JS.parseFloat (School.get (createEmptySchool id) field) = None
  /\ slot_score 10 (School.get (createEmptySchool id) field) = None
  /\ slot_score 0 (School.get (createEmptySchool id) field) = None.
Proof.
  rewrite createEmptySchool_get.
  destruct (includes ALL_SCORE_FIELDS field); by vm_compute.
Qed.

Lemma blank_row_positive_scores (id : Z) (fields : list string) :
  positive_scores fields (createEmptySchool id) = [].
Proof.
  unfold positive_scores. induction fields as [|f fields IH]; [done|].
  cbn [flat_map]. rewrite IH.
  by destruct (blank_row_unscored id f) as [-> _].
Qed.

(** X14. A row that [addSchool] creates has an empty slot for every score
    field and no other slot, holds no score under any of the parses, and is
    classified in tier 2. *)
Theorem new_row_is_blank (id : Z) :
  School.id (createEmptySchool id) = id
  /\ (forall field,
        get_field (createEmptySchool id) (key_score field)
        = if includes ALL_SCORE_FIELDS field then Some "" else None)
  /\ (forall field,
        JS.parseFloat (School.get (createEmptySchool id) field) = None
        /\ slot_score 10 (School.get (createEmptySchool id) field) = None
        /\ slot_score 0 (School.get (createEmptySchool id) field) = None)
  /\ getTier (createEmptySchool id) = 2.
Proof.
  split; [done|]. split; [|split].
  - intros field. unfold get_field, createEmptySchool. cbn [School.slots].
    by rewrite blank_slots_lookup, lookup_empty.
  - apply blank_row_unscored.
  - unfold getTier. rewrite allScores_positive_scores, blank_row_positive_scores.
    reflexivity.
Qed.

Lemma fold_max_ge (l : list Z) (a x : Z) :
  x <= a \/ In x l -> x <= fold_left Z.max l a.
Proof.
  revert a. induction l as [|y l IH]; intros a Hx; cbn [fold_left].
  - destruct Hx as [Hx|[]]. exact Hx.
  - apply IH. destruct Hx as [Hx|[<-|Hx]]; [left; lia|left; lia|by right].
Qed.

Lemma initialNextId_above (schools : list School.t) :
  Forall (fun s => School.id s < initialNextId schools) schools.
Proof.
  apply List.Forall_forall. intros s Hs. unfold initialNextId.
  apply (in_map School.id) in Hs.
  destruct (map School.id schools) as [|id ids]; [done|].
  pose proof (fold_max_ge ids id (School.id s)) as Hge.
  assert (Hcase : School.id s <= id \/ In (School.id s) ids).
  { destruct Hs as [Heq|Hs]; [left; lia|by right]. }
  specialize (Hge Hcase). lia.
Qed.

(** X15. The ids of the rows stay below [nextId] and distinct: the initial
    [nextId] is above every id of the loaded rows, and adding a row gives it
    the id [nextId], which no other row has, and moves [nextId] on by one. *)
Theorem added_row_has_fresh_id (prev : list School.t) (nextId : Z) :
  Forall (fun s => School.id s < initialNextId prev) prev
  /\ (Forall (fun s => School.id s < nextId) prev ->
      List.NoDup (map School.id prev) ->
      let '(next, nextId') := addSchool (prev, nextId) in
      next = prev ++ [createEmptySchool nextId]
      /\ nextId' = nextId + 1
      /\ ~ In nextId (map School.id prev)
      /\ Forall (fun s => School.id s < nextId') next
      /\ List.NoDup (map School.id next)).
Proof.
  split; [apply initialNextId_above|].
  intros Hbelow Hnodup.
  assert (Hfresh : ~ In nextId (map School.id prev)).
  { intros Hin. apply in_map_iff in Hin as (s & Hid & Hs).
    rewrite List.Forall_forall in Hbelow. specialize (Hbelow s Hs). lia. }
  unfold addSchool. split; [done|]. split; [done|]. split; [done|]. split.
  - apply List.Forall_app. split.
    + eapply List.Forall_impl; [|exact Hbelow]. intros s Hs. simpl in Hs. lia.
    + constructor; [simpl; lia|constructor].
  - rewrite map_app. apply List.NoDup_app; [done| |].
    + apply List.NoDup_cons; [by intros []|apply List.NoDup_nil].
    + intros id Hid [<-|[]]. by apply Hfresh.
Qed.

(** X16. A confirmed removal deletes every row with the given id and keeps
    the other rows in their order; a declined one changes nothing. *)
Theorem removeSchool_removes_the_id (prev : list School.t) (id : Z) :
  removeSchool false prev id = prev
  /\ ~ In id (map School.id (removeSchool true prev id))
  /\ (forall s, In s (removeSchool true prev id) <-> In s prev /\ School.id s <> id)
  /\ len (removeSchool true prev id) <= len prev
  /\ (~ In id (map School.id prev) -> removeSchool true prev id = prev)
  /\ (List.NoDup (map School.id prev) ->
      List.NoDup (map School.id (removeSchool true prev id))).
Proof.
  unfold removeSchool.
  assert (Hmem : forall s,
             In s (List.filter (fun school => negb (School.id school =? id)) prev)
             <-> In s prev /\ School.id s <> id).
  { intros s. rewrite filter_In, negb_true_iff, Z.eqb_neq. done. }
  split; [done|]. split; [|split; [exact Hmem|split; [|split]]].
  - intros Hin. apply in_map_iff in Hin as (s & Hid & Hs).
    apply Hmem in Hs as [_ Hne]. done.
  - unfold len.
    pose proof (List.filter_length_le
                  (fun school => negb (School.id school =? id)) prev). lia.
  - clear Hmem. intros Hnot. induction prev as [|s prev IH]; [done|].
    cbn [List.filter].
    destruct (Z.eqb_spec (School.id s) id) as [Heq|Hne]; simpl.
    + exfalso. apply Hnot. left. exact Heq.
    + rewrite IH; [done|]. intros Hin. apply Hnot. by right.
  - apply NoDup_map_filter.
Qed.

Lemma set_field_get (s : School.t) (field : SchoolKey) (value : string) :
  School.id (set_field s field value) = School.id s
  /\ get_field (set_field s field value) field = Some value
  /\ forall k, k <> field ->
       get_field (set_field s field value) k = get_field s k.
Proof.
  split; [by destruct field|]. split.
  - destruct field; simpl; try done. apply lookup_insert_eq.
  - intros k Hk. destruct field, k; simpl; try done.
    apply lookup_insert_ne. congruence.
Qed.

(** X17. Editing a field keeps the number, order and ids of the rows; in
    every row with the given id the field reads back as the new value and
    every other field is as before; rows with another id are untouched, and
    an id that no row has changes nothing. *)
Theorem updateSchool_edits_one_field (prev : list School.t) (id : Z)
    (field : SchoolKey) (value : string) :
  Forall2
    (fun s s' =>
       School.id s' = School.id s
       /\ (School.id s = id ->
           get_field s' field = Some value
           /\ forall k, k <> field -> get_field s' k = get_field s k)
       /\ (School.id s <> id -> s' = s))
    prev (updateSchool prev id field value)
  /\ (~ In id (map School.id prev) -> updateSchool prev id field value = prev).
Proof.
  unfold updateSchool. split.
  - induction prev as [|s prev IH]; [constructor|]. cbn [map].
    constructor; [|exact IH].
    destruct (set_field_get s field value) as (Hid & Hget & Hother).
    destruct (Z.eqb_spec (School.id s) id) as [Heq|Hne].
    + split; [done|]. split; [done|]. intros Hne. by destruct Hne.
    + split; [done|]. split; [|done]. intros Heq. by destruct Hne.
  - intros Hnot. induction prev as [|s prev IH]; [done|]. cbn [map].
    destruct (Z.eqb_spec (School.id s) id) as [Heq|Hne].
    + exfalso. apply Hnot. left. exact Heq.
    + rewrite IH; [done|]. intros Hin. apply Hnot. by right.
Qed.

Lemma set_field_twice (s : School.t) (field : SchoolKey) (v1 v2 : string) :
  set_field (set_field s field v1) field v2 = set_field s field v2.
Proof.
  destruct field; simpl; try done. by rewrite insert_insert_eq.
Qed.

Lemma set_field_commute (s : School.t) (f1 f2 : SchoolKey) (v1 v2 : string) :
  f1 <> f2 ->
  set_field (set_field s f1 v1) f2 v2 = set_field (set_field s f2 v2) f1 v1.
Proof.
  intros Hne. destruct f1, f2; simpl; try done.
  f_equal. apply insert_insert_ne. congruence.
Qed.

(** X18. Edits compose as assignments: of two edits of the same field of
    the same id the later one wins, and edits of different fields can be
    made in either order. *)
Theorem updateSchool_composes (prev : list School.t) (id1 id2 : Z)
    (f1 f2 : SchoolKey) (v1 v2 : string) :
  updateSchool (updateSchool prev id1 f1 v1) id1 f1 v2
  = updateSchool prev id1 f1 v2
  /\ (f1 <> f2 ->
      updateSchool (updateSchool prev id1 f1 v1) id2 f2 v2
      = updateSchool (updateSchool prev id2 f2 v2) id1 f1 v1).
Proof.
  unfold updateSchool. split.
  - rewrite map_map. apply map_ext. intros s.
    destruct (School.id s =? id1) eqn:Hid; [|by rewrite Hid].
    destruct (set_field_get s f1 v1) as [-> _]. rewrite Hid.
    apply set_field_twice.
  - intros Hne. rewrite !map_map. apply map_ext. intros s.
    destruct (School.id s =? id1) eqn:H1, (School.id s =? id2) eqn:H2;
      repeat match goal with
             | |- context [School.id (set_field ?s ?f ?v)] =>
                 destruct (set_field_get s f v) as [-> _]
             end;
      rewrite ?H1, ?H2; try done.
    by apply set_field_commute.
Qed.

(** X19. Analysing the table after a row was added: the schools analysed
    before keep their tiers, the new row comes last and falls in tier 2, and
    the summary counts one school more with the same student total and the
    same numbers of low and excellent schools. *)
Theorem analysis_after_addSchool (prev : list School.t) (nextId : Z) :
  let before := performAnalysis prev in
  let after := performAnalysis (fst (addSchool (prev, nextId))) in
  let added :=
    SchoolForAnalysis.mk (createEmptySchool nextId) "N/A" [] 2 in
  AnalysisData.schools after = AnalysisData.schools before ++ [added]
  /\ PerformanceClassification.tier1 (AnalysisData.performanceClassification after)
     = PerformanceClassification.tier1 (AnalysisData.performanceClassification before)
  /\ PerformanceClassification.tier2 (AnalysisData.performanceClassification after)
     = PerformanceClassification.tier2 (AnalysisData.performanceClassification before)
       ++ [added]
  /\ PerformanceClassification.tier3 (AnalysisData.performanceClassification after)
     = PerformanceClassification.tier3 (AnalysisData.performanceClassification before)
  /\ Summary.totalSchools (AnalysisData.summary after)
     = Summary.totalSchools (AnalysisData.summary before) + 1
  /\ Summary.totalStudents (AnalysisData.summary after)
     = Summary.totalStudents (AnalysisData.summary before)
  /\ Summary.lowPerformanceSchools (AnalysisData.summary after)
     = Summary.lowPerformanceSchools (AnalysisData.summary before)
  /\ Summary.excellentSchools (AnalysisData.summary after)
     = Summary.excellentSchools (AnalysisData.summary before).
Proof.
  assert (Htier : getTier (createEmptySchool nextId) = 2).
  { unfold getTier.
    rewrite allScores_positive_scores, blank_row_positive_scores. reflexivity. }
  unfold performAnalysis, addSchool.
  cbn [fst AnalysisData.schools AnalysisData.performanceClassification
       AnalysisData.summary PerformanceClassification.tier1
       PerformanceClassification.tier2 PerformanceClassification.tier3
       Summary.totalSchools Summary.totalStudents
       Summary.lowPerformanceSchools Summary.excellentSchools].
  rewrite map_app. cbn [map]. rewrite Htier, !List.filter_app.
  cbn [List.filter SchoolForAnalysis.tier Z.eqb Pos.eqb].
  rewrite !app_nil_r, len_app, fold_left_app.
  repeat split; try done.
  cbn [fold_left]. change (School.students (createEmptySchool nextId)) with "".
  change (JS.or_zero_Z (JS.parseInt "" 0)) with 0. lia.
Qed.

End Editing.

(** ** Exporting the score table *)

Lemma quoted_tail_inj (v w : string) :
  (double_quotes v ++ quote)%string = (double_quotes w ++ quote)%string -> v = w.
Proof.
  revert w. induction v as [|c v IH]; intros [|d w]; cbn [double_quotes].
  - done.
  - destruct (Ascii.eqb_spec d (ascii_of_nat 34)) as [->|Hd]; intros H.
    + by injection H.
    + injection H as Hq _. by destruct Hd.
  - destruct (Ascii.eqb_spec c (ascii_of_nat 34)) as [->|Hc]; intros H.
    + by injection H.
    + injection H as Hq _. by destruct Hc.
  - destruct (Ascii.eqb_spec c (ascii_of_nat 34)) as [->|Hc],
             (Ascii.eqb_spec d (ascii_of_nat 34)) as [->|Hd]; intros H.
    + injection H as H. by rewrite (IH w H).
    + injection H as Hq _. by destruct Hd.
    + injection H as Hq _. by destruct Hc.
    + injection H as -> H. by rewrite (IH w H).
Qed.

(** X20. The cell written for a value determines the value: two values with
    the same quoted cell are equal. *)
Theorem csv_cell_injective (v w : string) : csv_cell v = csv_cell w -> v = w.
Proof.
  unfold csv_cell, quote. intros H. injection H as H.
  by apply quoted_tail_inj.
Qed.

Lemma first_some_None {A B} (f : A -> option B) (l : list A) :
  first_some f l = None <-> forall x, In x l -> f x = None.
Proof.
  induction l as [|x l IH]; simpl.
  - split; [by intros _ y []|done].
  - destruct (f x) as [y|] eqn:Hfx.
    + split; [done|]. intros H. specialize (H x (or_introl eq_refl)). congruence.
    + rewrite IH. split.
      * intros H y [<-|Hy]; [done|by apply H].
      * intros H y Hy. apply H. by right.
Qed.

Lemma first_some_Some {A B} (f : A -> option B) (l : list A) (y : B) :
  first_some f l = Some y -> exists x, In x l /\ f x = Some y.
Proof.
  induction l as [|x l IH]; simpl; [done|].
  destruct (f x) as [y'|] eqn:Hfx.
  - intros [= <-]. exists x. split; [by left|done].
  - intros H. destruct (IH H) as (x' & Hx' & Hy). exists x'. split; [by right|done].
Qed.

Section CsvExport.

Variable ALL_SCORE_FIELDS : list string.
Variable HIERARCHICAL_CATEGORIES : list Category.t.

Local Abbreviation scoreHeader := (scoreHeader HIERARCHICAL_CATEGORIES).
Local Abbreviation finalHeaders :=
  (finalHeaders ALL_SCORE_FIELDS HIERARCHICAL_CATEGORIES).
Local Abbreviation csv_cells := (csv_cells ALL_SCORE_FIELDS).
Local Abbreviation csvRows := (csvRows ALL_SCORE_FIELDS).

(** X21. The exported table has one line per school after the header line,
    and every line has as many cells as there are column titles: four
    identity columns, one per score field and the notes. *)
Theorem csv_rows_match_headers (schools : list School.t) (school : School.t) :
  length (csvRows schools) = length schools
  /\ length (csv_cells school) = length finalHeaders
  /\ length finalHeaders = (5 + length ALL_SCORE_FIELDS)%nat.
Proof.
  unfold csvRows, csv_cells, csv_row_values, finalHeaders, baseHeaders.
  rewrite !length_map, !length_app, !length_map. simpl. split; [done|]. lia.
Qed.


End CsvExport.

(** ** More on the report card and the dashboard *)

Lemma take_In {A} (n : nat) (l : list A) (x : A) : In x (take n l) -> In x l.
Proof.
  intros Hx. rewrite <- (firstn_skipn n l). apply in_app_iff. by left.
Qed.

Lemma StronglySorted_take {A} (R : A -> A -> Prop) (n : nat) (l : list A) :
  StronglySorted R l -> StronglySorted R (take n l).
Proof.
  intros Hsorted. revert n.
  induction Hsorted as [|x l _ IH Hall]; intros [|n]; simpl; try constructor.
  - apply IH.
  - apply List.Forall_forall. intros y Hy. apply take_In in Hy.
    revert y Hy. by apply List.Forall_forall.
Qed.

Lemma find_first {A} (p : A -> bool) (l : list A) (x : A) :
  List.find p l = Some x ->
  exists l1 l2, l = l1 ++ x :: l2 /\ p x = true
                /\ forall y, In y l1 -> p y = false.
Proof.
  induction l as [|y l IH]; simpl; [done|].
  destruct (p y) eqn:Hy.
  - intros [= <-]. exists [], l. by repeat split.
  - intros Hfind. destruct (IH Hfind) as (l1 & l2 & -> & Hx & Hbefore).
    exists (y :: l1), l2. repeat split; [done|].
    intros z [<-|Hz]; [done|by apply Hbefore].
Qed.

Lemma fold_insert_keys {A K V} `{Countable K} (f : gmap K V -> A -> gmap K V)
    (key : A -> K) (l : list A) (m : gmap K V) (k : K) :
  (forall m a, exists v, f m a = <[key a := v]> m) ->
  is_Some (fold_left f l m !! k) <-> In k (map key l) \/ is_Some (m !! k).
Proof.
  intros Hf. revert m. induction l as [|a l IH]; intros m; cbn [fold_left map].
  - split; [by right|]. by intros [[]|].
  - rewrite IH. destruct (Hf m a) as [v ->].
    destruct (decide (key a = k)) as [<-|Hne].
    + rewrite lookup_insert_eq. split; [intros _; left; by left|by right].
    + rewrite lookup_insert_ne by done. split.
      * intros [Hin|Hm]; [left; by right|by right].
      * intros [[Heq|Hin]|Hm]; [done|by left|by right].
Qed.

Section ReportCardMore.

Variable ALL_SCORE_FIELDS : list string.
Variable HIERARCHICAL_CATEGORIES : list Category.t.
Variable METRIC_TO_CHALLENGE_MAP : gmap string string.

Local Abbreviation createReportCardData :=
  (createReportCardData ALL_SCORE_FIELDS HIERARCHICAL_CATEGORIES
     METRIC_TO_CHALLENGE_MAP).
Local Abbreviation allMetricsWithInfo :=
  (allMetricsWithInfo HIERARCHICAL_CATEGORIES).
Local Abbreviation schoolTableData := (schoolTableData ALL_SCORE_FIELDS).
Local Abbreviation systemicStrengths := (systemicStrengths HIERARCHICAL_CATEGORIES).

(** X23. A report card exists exactly for the ids that some analysed school
    has; it is the card of the first school with that id and carries that
    school's name, principal and tier. *)
Theorem report_card_exists_iff (analysisData : AnalysisData.t) (schoolId : Z) :
  createReportCardData None schoolId = None
  /\ (createReportCardData (Some analysisData) schoolId = None
      <-> ~ In schoolId
            (map SchoolForAnalysis.id (AnalysisData.schools analysisData)))
  /\ (forall card,
        createReportCardData (Some analysisData) schoolId = Some card ->
        let school := SchoolReportCard.school card in
        (exists before after,
           AnalysisData.schools analysisData = before ++ school :: after
           /\ ~ In schoolId (map SchoolForAnalysis.id before))
        /\ SchoolForAnalysis.id school = schoolId
        /\ SchoolReportCard.schoolName card = SchoolForAnalysis.name school
        /\ SchoolReportCard.principalName card
           = School.principal (SchoolForAnalysis.base school)
        /\ SchoolReportCard.performanceTier card = SchoolForAnalysis.tier school).
Proof.
  split; [done|]. unfold createReportCardData.
  destruct (List.find _ _) as [found|] eqn:Hfind; split.
  - split; [done|]. intros Hnot. exfalso. apply Hnot.
    apply List.find_some in Hfind as [Hin Hid]. apply Z.eqb_eq in Hid.
    apply in_map_iff. by exists found.
  - intros card [= <-]. simpl.
    apply find_first in Hfind as (before & after & Hsplit & Hid & Hbefore).
    apply Z.eqb_eq in Hid. split; [|done].
    exists before, after. split; [done|].
    intros Hin. apply in_map_iff in Hin as (s & Hs & Hin).
    specialize (Hbefore s Hin). apply Z.eqb_neq in Hbefore. done.
  - split; [|done]. intros _ Hin.
    apply in_map_iff in Hin as (s & Hs & Hin).
    pose proof (List.find_none _ _ Hfind s Hin) as Hne.
    apply Z.eqb_neq in Hne. done.
  - done.
Qed.

(** X24. The domain averages of a report card have an entry for every
    category name of the taxonomy and for nothing else. *)
Theorem domainAverages_keys (analysisData : AnalysisData.t) (schoolId : Z)
    (card : SchoolReportCard.t) (name : string) :
  createReportCardData (Some analysisData) schoolId = Some card ->
  is_Some (SchoolReportCard.domainAverages card !! name)
  <-> In name (map Category.name HIERARCHICAL_CATEGORIES).
Proof.
  unfold createReportCardData.
  destruct (List.find _ _) as [found|]; [|done].
  intros [= <-]. cbn [SchoolReportCard.domainAverages].
  rewrite (fold_insert_keys _ Category.name).
  - rewrite lookup_empty. split; [|by left].
    intros [Hin|Hsome]; [done|]. by destruct Hsome.
  - intros m cat. eexists. reflexivity.
Qed.

(** An entry describes a metric of the taxonomy with its set positive
    score. *)
Local Abbreviation describes school categories item :=
  (exists cat subCat metric,
     In cat categories
     /\ In subCat (Category.subCategories cat)
     /\ In metric (SubCategory.metrics subCat)
     /\ MetricInfo.key item = Metric.key metric
     /\ MetricInfo.subCategory item = SubCategory.name subCat
     /\ MetricInfo.name item = Metric.name metric
     /\ slot_score 10 (SchoolForAnalysis.get school (Metric.key metric))
        = Some (MetricInfo.score item)).

Lemma info_of_metrics (school : SchoolForAnalysis.t) (subCat : SubCategory.t)
    (metrics : list Metric.t) (acc : list MetricInfo.t) (item : MetricInfo.t) :
  In item
    (fold_left
       (fun acc metric =>
          match JS.parseInt (SchoolForAnalysis.get school (Metric.key metric)) 10 with
          | Some score =>
              if 0 <? score
              then acc ++ [MetricInfo.mk (Metric.key metric)
                             (SubCategory.name subCat) (Metric.name metric) score]
              else acc
          | None => acc
          end)
       metrics acc) ->
  In item acc
  \/ exists metric,
       In metric metrics
       /\ MetricInfo.key item = Metric.key metric
       /\ MetricInfo.subCategory item = SubCategory.name subCat
       /\ MetricInfo.name item = Metric.name metric
       /\ slot_score 10 (SchoolForAnalysis.get school (Metric.key metric))
          = Some (MetricInfo.score item).
Proof.
  revert acc. induction metrics as [|metric metrics IH]; intros acc;
    cbn [fold_left]; [by left|].
  intros Hin. apply IH in Hin as [Hin|(m & Hm & Hrest)].
  - unfold slot_score.
    destruct (JS.parseInt (SchoolForAnalysis.get school (Metric.key metric)) 10)
      as [score|] eqn:Hparse; [|by left].
    destruct (0 <? score) eqn:Hpos; [|by left].
    apply in_app_iff in Hin as [Hin|[<-|[]]]; [by left|].
    right. exists metric. cbn. rewrite Hparse, Hpos. split; [by left|done].
  - right. exists m. split; [by right|done].
Qed.

Lemma info_of_subCategories (school : SchoolForAnalysis.t)
    (subCats : list SubCategory.t) (acc : list MetricInfo.t) (item : MetricInfo.t) :
  In item
    (fold_left
       (fun acc subCat =>
          fold_left
            (fun acc metric =>
               match JS.parseInt (SchoolForAnalysis.get school (Metric.key metric)) 10 with
               | Some score =>
                   if 0 <? score
                   then acc ++ [MetricInfo.mk (Metric.key metric)
                                  (SubCategory.name subCat) (Metric.name metric) score]
                   else acc
               | None => acc
               end)
            (SubCategory.metrics subCat) acc)
       subCats acc) ->
  In item acc
  \/ exists subCat metric,
       In subCat subCats
       /\ In metric (SubCategory.metrics subCat)
       /\ MetricInfo.key item = Metric.key metric
       /\ MetricInfo.subCategory item = SubCategory.name subCat
       /\ MetricInfo.name item = Metric.name metric
       /\ slot_score 10 (SchoolForAnalysis.get school (Metric.key metric))
          = Some (MetricInfo.score item).
Proof.
  revert acc. induction subCats as [|subCat subCats IH]; intros acc;
    cbn [fold_left]; [by left|].
  intros Hin. apply IH in Hin as [Hin|(sc & m & Hsc & Hrest)].
  - apply info_of_metrics in Hin as [Hin|(m & Hm & Hrest)]; [by left|].
    right. exists subCat, m. split; [by left|done].
  - right. exists sc, m. split; [by right|done].
Qed.

Lemma allMetricsWithInfo_describes (school : SchoolForAnalysis.t)
    (item : MetricInfo.t) :
  In item (allMetricsWithInfo school) ->
  describes school HIERARCHICAL_CATEGORIES item.
Proof.
  unfold allMetricsWithInfo.
  assert (Hgen : forall categories acc,
             In item
               (fold_left
                  (fun acc category =>
                     fold_left
                       (fun acc subCat =>
                          fold_left
                            (fun acc metric =>
                               match JS.parseInt
                                       (SchoolForAnalysis.get school
                                          (Metric.key metric)) 10 with
                               | Some score =>
                                   if 0 <? score
                                   then acc ++
                                          [MetricInfo.mk (Metric.key metric)
                                             (SubCategory.name subCat)
                                             (Metric.name metric) score]
                                   else acc
                               | None => acc
                               end)
                            (SubCategory.metrics subCat) acc)
                       (Category.subCategories category) acc)
                  categories acc) ->
             In item acc \/ describes school categories item).
  { induction categories as [|cat categories IH]; intros acc;
      cbn [fold_left]; [by left|].
    intros Hin. apply IH in Hin as [Hin|(c & sc & m & Hc & Hrest)].
    - apply info_of_subCategories in Hin as [Hin|(sc & m & Hsc & Hrest)];
        [by left|].
      right. exists cat, sc, m. split; [by left|done].
    - right. exists c, sc, m. split; [by right|done]. }
  intros Hin. by destruct (Hgen _ _ Hin) as [[]|Hd].
Qed.

(** X25. The strengths of a report card are at most six, the descriptions
    of metrics of the taxonomy whose set score is at least 4, in descending
    order of score. *)
Theorem strengths_are_top_scores (analysisData : AnalysisData.t) (schoolId : Z)
    (card : SchoolReportCard.t) :
  createReportCardData (Some analysisData) schoolId = Some card ->
  exists infos,
    SchoolReportCard.strengths card
    = map (fun item =>
             (MetricInfo.subCategory item ++ ": " ++ MetricInfo.name item)%string)
          infos
    /\ (length infos <= 6)%nat
    /\ (forall item,
          In item infos ->
          describes (SchoolReportCard.school card) HIERARCHICAL_CATEGORIES item
          /\ 4 <= MetricInfo.score item)
    /\ StronglySorted (fun a b => MetricInfo.score b <= MetricInfo.score a) infos.
Proof.
  unfold createReportCardData.
  destruct (List.find _ _) as [found|]; [|done].
  intros [= <-]. cbn [SchoolReportCard.strengths SchoolReportCard.school].
  eexists. split; [reflexivity|]. split; [apply firstn_le_length|]. split.
  - intros item Hitem. apply take_In in Hitem.
    apply (Permutation_in _ (Array_sort_perm _ _)) in Hitem.
    apply filter_In in Hitem as [Hin Hscore].
    split; [by apply allMetricsWithInfo_describes|].
    apply leb_le in Hscore. revert Hscore. unfold Qle. simpl. lia.
  - apply StronglySorted_take, Sorted_StronglySorted; [intros a b c; lia|].
    eapply Sorted_weaken; [|apply Array_sort_sorted].
    + intros a b Hab. simpl in Hab. apply Z.leb_le in Hab. lia.
    + intros a b Hab. simpl in *. apply Z.leb_gt in Hab. apply Z.leb_le. lia.
Qed.

(** X26. The systemic strengths are at most five sub-category averages, in
    descending order. *)
Theorem systemicStrengths_top_five (schools : list SchoolForAnalysis.t) :
  (length (systemicStrengths schools) <= 5)%nat
  /\ StronglySorted (fun a b => (snd b <= snd a)%Q) (systemicStrengths schools).
Proof.
  unfold systemicStrengths. split; [apply firstn_le_length|].
  apply StronglySorted_take, Sorted_StronglySorted.
  { intros a b c Hab Hbc. by apply (Qle_trans _ (snd b)). }
  eapply Sorted_weaken; [|apply Array_sort_sorted].
  - intros a b Hab. simpl in Hab. apply leb_le in Hab. lra.
  - intros a b Hab. simpl in *. apply leb_gt in Hab. apply leb_le. lra.
Qed.

(** X27. The school table and the report card agree: the card of an id
    shows the name, tier and overall average of a row of the table with that
    id. *)
Theorem report_card_matches_table_row (analysisData : AnalysisData.t)
    (schoolId : Z) (card : SchoolReportCard.t) :
  createReportCardData (Some analysisData) schoolId = Some card ->
  exists row,
    In row (schoolTableData analysisData)
    /\ SchoolAssessmentData.id row = schoolId
    /\ SchoolAssessmentData.schoolName row = SchoolReportCard.schoolName card
    /\ SchoolAssessmentData.principalName row = SchoolReportCard.principalName card
    /\ SchoolAssessmentData.performanceTier row
       = SchoolReportCard.performanceTier card
    /\ SchoolAssessmentData.overallAverage row
       = SchoolReportCard.overallAverage card.
Proof.
  unfold createReportCardData, schoolTableData.
  destruct (List.find _ _) as [found|] eqn:Hfind; [|done].
  intros [= <-]. apply List.find_some in Hfind as [Hin Hid].
  apply Z.eqb_eq in Hid.
  eexists. split; [apply in_map; exact Hin|]. by repeat split.
Qed.

End ReportCardMore.

(** ** Sample runs of the further properties *)

Lemma issues_ranked_by_urgency_witness :
  StronglySorted (fun a b => Issue.urgency b <= Issue.urgency a)
    Edits.ranked_issues
  /\ map Issue.id Edits.ranked_issues = ["i2"; "i1"].
Proof.
  split; [|vm_compute; reflexivity].
  apply (issues_ranked_by_urgency Sample.challenge_texts Sample.labels
           Sample.issue_metrics Sample.plan_issues Sample.catalog
           Edits.ranking_schools ["focus"]).
  vm_compute. reflexivity.
Defined.

Lemma equal_urgency_keeps_catalogue_order_witness :
  map Issue.id
    (List.filter (fun issue => Issue.urgency issue =? 67) Edits.ranked_issues)
  = ["i2"].
Proof.
  rewrite (equal_urgency_keeps_catalogue_order Sample.challenge_texts
             Sample.labels Sample.issue_metrics Sample.plan_issues
             Sample.catalog Edits.ranking_schools ["focus"]
             Edits.ranked_issues 67).
  - vm_compute. reflexivity.
  - vm_compute. reflexivity.
Defined.

Lemma issue_counts_and_urgency_bounds_witness :
  List.Forall
    (fun issue =>
       1 <= Issue.affectedSchools issue <= Issue.totalSchools issue
       /\ Issue.totalSchools issue = 3
       /\ 0 <= Issue.urgency issue <= 100)
    Edits.ranked_issues.
Proof.
  apply List.Forall_forall. intros issue Hissue.
  apply (issue_counts_and_urgency_bounds Sample.challenge_texts Sample.labels
           Sample.issue_metrics Sample.plan_issues Sample.catalog
           Edits.ranking_schools ["focus"] Edits.ranked_issues issue).
  - vm_compute. reflexivity.
  - exact Hissue.
Defined.


Lemma affected_schools_have_detail_rows_witness :
  List.Forall
    (fun issue => Issue.affectedSchools issue <= len (Issue.schoolDetails issue))
    Edits.ranked_issues.
Proof.
  apply List.Forall_forall. intros issue Hissue.
  apply (affected_schools_have_detail_rows Sample.challenge_texts Sample.labels
           Sample.issue_metrics Sample.plan_issues Sample.catalog
           Edits.ranking_schools ["focus"] Edits.ranked_issues issue).
  - vm_compute. reflexivity.
  - exact Hissue.
Defined.

Lemma category_average_zero_iff_no_data_witness :
  (1 <= calculateAverageForCategory Sample.issue_metrics "i1" Sample.district)%Q
  /\ (calculateAverageForCategory Sample.issue_metrics "i2" Sample.district == 0)%Q.
Proof.
  split.
  - apply (category_average_zero_iff_no_data Sample.issue_metrics "i1"
             Sample.district).
    vm_compute. discriminate.
  - apply (category_average_zero_iff_no_data Sample.issue_metrics "i2"
             Sample.district).
    vm_compute. reflexivity.
Defined.

Lemma issues_come_from_selected_areas_witness :
  List.Forall
    (fun issue => In (Issue.id issue) ["i1"; "i2"; "i3"])
    Edits.ranked_issues.
Proof.
  apply List.Forall_forall. intros issue Hissue.
  destruct (issues_come_from_selected_areas Sample.challenge_texts Sample.labels
              Sample.issue_metrics Sample.plan_issues Sample.catalog
              Edits.ranking_schools ["focus"] Edits.ranked_issues)
    as [Hfrom _].
  - vm_compute. reflexivity.
  - destruct (Hfrom issue Hissue) as (d & _ & Hrel & Hid & _).
    rewrite Hid. exact Hrel.
Defined.


Lemma selection_stays_small_witness :
  List.NoDup (handleIssueSelection Edits.picked "i3")
  /\ len (handleIssueSelection Edits.picked "i3") <= 3.
Proof.
  apply selection_stays_small.
  - repeat constructor; simpl; intuition discriminate.
  - vm_compute. discriminate.
Defined.

Lemma click_toggles_one_issue_witness :
  In "i3" (handleIssueSelection Edits.picked "i3").
Proof.
  apply (click_toggles_one_issue Edits.picked "i3" "i3"). right.
  split; [reflexivity|]. split.
  - simpl. intuition discriminate.
  - vm_compute. reflexivity.
Defined.

Lemma select_then_deselect_witness :
  handleIssueSelection (handleIssueSelection Edits.picked "i3") "i3"
  = Edits.picked.
Proof.
  apply select_then_deselect.
  - simpl. intuition discriminate.
  - vm_compute. reflexivity.
Defined.

Lemma continue_passes_selected_issues_witness :
  len (handleContinue Edits.ranked_issues ["i2"]) <= 1.
Proof.
  apply (continue_passes_selected_issues Edits.ranked_issues ["i2"]).
  vm_compute. repeat constructor; simpl; intuition discriminate.
Defined.

Lemma sortedDetails_ordered_witness :
  StronglySorted
    (fun a b =>
       default 0 (severityOrder (SchoolIssueDetail.severity b))
       <= default 0 (severityOrder (SchoolIssueDetail.severity a)))
    (sortedDetails Edits.detail_rows by_severity)
  /\ map SchoolIssueDetail.schoolId (sortedDetails Edits.detail_rows by_severity)
     = [10; 8; 9].
Proof.
  split; [|vm_compute; reflexivity].
  apply (sortedDetails_ordered Edits.detail_rows).
  vm_compute. repeat constructor; discriminate.
Defined.

Lemma added_row_has_fresh_id_witness :
  List.NoDup
    (map School.id
       (fst (addSchool Sample.fields
               (Edits.table, initialNextId Edits.table))))
  /\ snd (addSchool Sample.fields (Edits.table, initialNextId Edits.table)) = 8.
Proof.
  destruct (added_row_has_fresh_id Sample.fields Edits.table
              (initialNextId Edits.table)) as [Hbelow Hadd].
  specialize (Hadd Hbelow).
  unfold addSchool in *. cbn [fst snd].
  destruct Hadd as (_ & _ & _ & _ & Hnodup).
  - vm_compute. repeat constructor; simpl; intuition discriminate.
  - split; [exact Hnodup|]. vm_compute. reflexivity.
Defined.

Lemma removeSchool_removes_the_id_witness :
  removeSchool true Edits.table 99 = Edits.table
  /\ List.NoDup (map School.id (removeSchool true Edits.table 4)).
Proof.
  destruct (removeSchool_removes_the_id Edits.table 99)
    as (_ & _ & _ & _ & Habsent & _).
  destruct (removeSchool_removes_the_id Edits.table 4)
    as (_ & _ & _ & _ & _ & Hnodup).
  split.
  - apply Habsent. vm_compute. intuition discriminate.
  - apply Hnodup. vm_compute. repeat constructor; simpl; intuition discriminate.
Defined.

Lemma updateSchool_edits_one_field_witness :
  updateSchool Edits.table 99 key_name "Renamed" = Edits.table.
Proof.
  apply (updateSchool_edits_one_field Edits.table 99 key_name "Renamed").
  vm_compute. intuition discriminate.
Defined.

Lemma updateSchool_composes_witness :
  updateSchool (updateSchool Edits.table 4 key_name "Renamed") 4 key_notes "seen"
  = updateSchool (updateSchool Edits.table 4 key_notes "seen") 4 key_name "Renamed".
Proof.
  apply (updateSchool_composes Edits.table 4 4 key_name key_notes
           "Renamed" "seen").
  discriminate.
Defined.

Lemma csv_cell_injective_witness :
  Edits.plain_value = "plain".
Proof.
  apply csv_cell_injective. vm_compute. reflexivity.
Defined.


Lemma report_card_exists_iff_witness :
  createReportCardData Sample.fields Sample.flat_taxonomy Sample.challenge_texts
    (Some Sample.report_input) 99 = None.
Proof.
  apply (report_card_exists_iff Sample.fields Sample.flat_taxonomy
           Sample.challenge_texts Sample.report_input 99).
  vm_compute. intuition discriminate.
Defined.

Lemma domainAverages_keys_witness :
  is_Some (SchoolReportCard.domainAverages Sample.dampened_card !! "All").
Proof.
  apply (domainAverages_keys Sample.fields Sample.flat_taxonomy
           Sample.challenge_texts Sample.report_input 5 Sample.dampened_card).
  - vm_compute. reflexivity.
  - left. reflexivity.
Defined.

Lemma strengths_are_top_scores_witness :
  exists infos,
    SchoolReportCard.strengths Sample.dampened_card
    = map (fun item =>
             (MetricInfo.subCategory item ++ ": " ++ MetricInfo.name item)%string)
          infos
    /\ (length infos <= 6)%nat
    /\ StronglySorted (fun a b => MetricInfo.score b <= MetricInfo.score a) infos.
Proof.
  destruct (strengths_are_top_scores Sample.fields Sample.flat_taxonomy
              Sample.challenge_texts Sample.report_input 5 Sample.dampened_card)
    as (infos & Hstrengths & Hlength & _ & Hsorted).
  - vm_compute. reflexivity.
  - exists infos. split; [exact Hstrengths|]. split; [exact Hlength|exact Hsorted].
Defined.

Lemma report_card_matches_table_row_witness :
  exists row,
    In row (schoolTableData Sample.fields Sample.report_input)
    /\ SchoolAssessmentData.id row = 5
    /\ SchoolAssessmentData.overallAverage row
       = SchoolReportCard.overallAverage Sample.dampened_card.
Proof.
  destruct (report_card_matches_table_row Sample.fields Sample.flat_taxonomy
              Sample.challenge_texts Sample.report_input 5 Sample.dampened_card)
    as (row & Hrow & Hid & _ & _ & _ & Havg).
  - vm_compute. reflexivity.
  - exists row. split; [exact Hrow|]. split; [exact Hid|exact Havg].
Defined.
